(** * Request gatekeeper middleware of asus-press-directus

    A shallow embedding of the Express middleware of the
    [asus-press-hooks] extension and of the status rewriter:

    - [check-origin.ts]        : [hasFormLikeHeader], [createCheckOriginMiddleware]
    - [property-validation.ts] : [createGraphQLPropertyValidation],
                                 [createAuthLoginPropertyValidation]
    - [endpoint-validation.ts] : [createGraphQLEndpointValidation]
    - status rewriter          : [createStatusRewriteMiddleware]

    A middleware [(req, res, next) => ...] is embedded as a function from
    the request to an [Outcome]: it calls [next()], or it ends the chain
    with [res.status(s).send(body)].  Console output is threaded through a
    small writer monad. *)

From Stdlib Require Import String Ascii List ZArith Bool Arith DecimalString.
Import ListNotations.

Local Open Scope list_scope.
Local Open Scope string_scope.

(* ================================================================== *)
(** * JavaScript values and strings *)
(* ================================================================== *)

Module JS.

(** The values a parsed request body or a response body can hold.
    Numbers are only carried around, never computed with. *)
#[warnings="-register-all"]
Inductive JSValue : Type :=
| JUndefined
| JNull
| JBool (b : bool)
| JNumber (n : Z)
| JString (s : string)
| JArray (items : list JSValue)
| JObject (fields : list (string * JSValue)).

(** [ToBoolean]: what [if (v)], [!v] and [v || w] look at. *)
Definition truthy (v : JSValue) : bool :=
  match v with
  | JUndefined | JNull => false
  | JBool b => b
  | JNumber n => negb (n =? 0)%Z
  | JString s => negb (s =? "")
  | JArray _ | JObject _ => true
  end.

(** [a || b] on values. *)
Definition or_else (a b : JSValue) : JSValue :=
  if truthy a then a else b.

(** A header read from [req.headers] is [string | undefined]. *)
Definition Header := option string.

(** [ToBoolean] of a header: [undefined] and the empty string are falsy. *)
Definition present (h : Header) : bool :=
  match h with
  | Some s => negb (s =? "")
  | None => false
  end.

(** [a || b] on headers. *)
Definition hor (a b : Header) : Header :=
  if present a then a else b.

(** [ToString] of a header, as a template literal and [new URL] apply it. *)
Definition to_str (h : Header) : string :=
  match h with
  | Some s => s
  | None => "undefined"
  end.

(** [a === s] for a header [a] and a string [s]. *)
Definition strict_eq (a : Header) (s : string) : bool :=
  match a with
  | Some x => x =? s
  | None => false
  end.

(** [xs.includes(x)] on an array of strings. *)
Definition includes (xs : list string) (x : string) : bool :=
  existsb (fun y => y =? x) xs.

(** [s.includes(sub)] on strings: [sub] occurs in [s] at some offset. *)
Fixpoint str_includes (s sub : string) : bool :=
  prefix sub s ||
  match s with
  | EmptyString => false
  | String _ s' => str_includes s' sub
  end.

(** [toLowerCase] on one code unit.  Node decodes header values as
    Latin-1, so a code unit is one of 256 values: A-Z and the accented
    capitals U+00C0-U+00DE (the multiplication sign U+00D7 apart) move up
    by 32. *)
Definition lower_char (c : ascii) : ascii :=
  let n := nat_of_ascii c in
  if ((65 <=? n)%nat && (n <=? 90)%nat) ||
     ((192 <=? n)%nat && (n <=? 222)%nat && negb (n =? 215)%nat)
  then ascii_of_nat (n + 32)
  else c.

Fixpoint toLowerCase (s : string) : string :=
  match s with
  | EmptyString => EmptyString
  | String c s' => String (lower_char c) (toLowerCase s')
  end.

(** Decimal spelling of an array index, as property keys have it. *)
Definition index_key (i : nat) : string :=
  NilZero.string_of_uint (Nat.to_uint i).

(** The own enumerable string keys of a value.  [null] and [undefined]
    have none (and [Object.keys] throws on them, see [Object_keys]). *)
Definition own_keys (v : JSValue) : list string :=
  match v with
  | JObject fields => map fst fields
  | JArray items => map index_key (seq 0 (List.length items))
  | JString s => map index_key (seq 0 (String.length s))
  | JUndefined | JNull | JBool _ | JNumber _ => []
  end.

(** [Object.keys(v)]: [None] stands for the [TypeError] raised on
    [null] and [undefined]. *)
Definition Object_keys (v : JSValue) : option (list string) :=
  match v with
  | JUndefined | JNull => None
  | _ => Some (own_keys v)
  end.

End JS.
Import JS.

(* ================================================================== *)
(** * Requests, outcomes and console output *)
(* ================================================================== *)

(** The fields of an Express request that the middleware read. *)
Record Request : Type := mkRequest {
  method : string;            (* req.method *)
  originalUrl : string;       (* req.originalUrl *)
  h_origin : Header;          (* req.headers.origin *)
  h_referer : Header;         (* req.headers.referer *)
  h_content_type : Header;    (* req.headers["content-type"] *)
  body : JSValue              (* req.body *)
}.

(** What a middleware does with the chain. *)
Inductive Outcome : Type :=
| Next                                   (* next() *)
| Send (status : Z) (payload : JSValue)  (* res.status(status).send(payload) *)
| Throw.                                 (* an uncaught exception *)

Inductive LogLine : Type :=
| Log (line : string)       (* console.log *)
| Warn (line : string).     (* console.warn *)

(** Writer monad over the console. *)
Definition Console (A : Type) : Type := (list LogLine * A)%type.

Definition ret {A} (a : A) : Console A := ([], a).

Definition bind {A B} (m : Console A) (k : A -> Console B) : Console B :=
  let (out1, a) := m in
  let (out2, b) := k a in
  ((out1 ++ out2)%list, b).

Definition console_log (line : string) : Console unit := ([Log line], tt).
Definition console_warn (line : string) : Console unit := ([Warn line], tt).

Notation "m ;; k" := (bind m (fun _ => k))
  (at level 61, right associativity).

(** The outcome of a run, its console output left aside. *)
Definition decision {A} (m : Console A) : A := snd m.

(** [{ error: msg }] *)
Definition error_body (msg : string) : JSValue :=
  JObject [("error", JString msg)].

(* ================================================================== *)
(** * check-origin.ts *)
(* ================================================================== *)

Definition FORM_CONTENT_TYPES : list string :=
  [ "application/x-www-form-urlencoded";
    "multipart/form-data";
    "text/plain" ].

Definition SAFE_METHODS : list string := ["GET"; "HEAD"; "OPTIONS"].

(** The loop returns [true] at the first form content type found in the
    lower-cased header. *)
Definition hasFormLikeHeader (contentType : Header) : bool :=
  if present contentType
  then existsb (fun formContentType =>
                  str_includes (toLowerCase (to_str contentType)) formContentType)
               FORM_CONTENT_TYPES
  else false.

Section CheckOrigin.

(** [new URL(s).hostname]: the host name of [s], or [None] where the
    constructor throws.  The WHATWG parser belongs to the platform; the
    middleware is verified for any parser. *)
Variable url_hostname : string -> option string.

(** The callback of [allowedOrigins.some]. *)
Definition origin_matches (sourceHost allowedOrigin : string) : bool :=
  match url_hostname allowedOrigin with
  | Some allowedHost => sourceHost =? allowedHost
  | None => sourceHost =? allowedOrigin
  end.

Definition unauthorized : JSValue :=
  error_body "Access denied: unauthorized origin.".

Definition forbidden (method : string) : JSValue :=
  error_body ("Cross-site " ++ method ++ " form submissions are forbidden").

Definition createCheckOriginMiddleware
    (allowedOrigins : list string) (requestUrl : string)
    (req : Request) : Console Outcome :=
  let origin := h_origin req in
  let referer := h_referer req in
  let method := method req in
  console_log ("[Request] " ++ method ++ " " ++ originalUrl req) ;;
  if includes SAFE_METHODS method then ret Next
  else if (0 <? List.length allowedOrigins)%nat then
    if negb (present origin) && negb (present referer) then ret Next
    else
      let sourceUrl := hor origin referer in
      if negb (present sourceUrl) then ret Next
      else
        match url_hostname (to_str sourceUrl) with
        | Some sourceHost =>
            let isAllowed :=
              existsb (origin_matches sourceHost) allowedOrigins in
            if negb isAllowed then
              console_warn
                ("[Security] Blocked request from unauthorized origin/referer: "
                   ++ to_str sourceUrl) ;;
              ret (Send 403 unauthorized)
            else ret Next
        | None =>
            console_warn "[Security] Blocked request with invalid URL format" ;;
            ret (Send 403 unauthorized)
        end
  else
    if negb (present origin) then ret Next
    else
      let isSameOrigin := strict_eq origin requestUrl in
      let contentType := h_content_type req in
      if present contentType then
        let isFormLike := hasFormLikeHeader contentType in
        if isFormLike && negb isSameOrigin then
          console_warn
            ("[CSRF] Blocked cross-site " ++ method
               ++ " form submission from: " ++ to_str origin) ;;
          ret (Send 403 (forbidden method))
        else ret Next
      else
        if negb isSameOrigin then
          console_warn
            ("[CSRF] Blocked cross-site " ++ method
               ++ " request without content-type from: " ++ to_str origin) ;;
          ret (Send 403 (forbidden method))
        else ret Next.

(** The check as a decision procedure. *)
Definition checkOrigin (allowedOrigins : list string) (requestUrl : string)
    (req : Request) : Outcome :=
  decision (createCheckOriginMiddleware allowedOrigins requestUrl req).

End CheckOrigin.

(* ================================================================== *)
(** * property-validation.ts *)
(* ================================================================== *)

Definition invalid_properties : JSValue :=
  error_body "Request contains invalid properties.".

Definition createGraphQLPropertyValidation (req : Request) : Outcome :=
  let allowedProps := ["query"; "variables"; "operationName"] in
  match Object_keys (or_else (body req) (JObject [])) with
  | None => Throw
  | Some props =>
      let isAllowed := forallb (fun prop => includes allowedProps prop) props in
      if negb isAllowed then Send 400 invalid_properties else Next
  end.

Definition createAuthLoginPropertyValidation (req : Request) : Outcome :=
  let allowedProps := ["email"; "password"; "mode"] in
  match Object_keys (or_else (body req) (JObject [])) with
  | None => Throw
  | Some props =>
      let isAllowed := forallb (fun prop => includes allowedProps prop) props in
      if negb isAllowed then Send 400 invalid_properties else Next
  end.

(* ================================================================== *)
(** * Regular expressions *)
(* ================================================================== *)

(** A backtracking matcher in continuation-passing style for the part of
    the ECMAScript pattern language the endpoint check is written in.  A
    non-capturing group [(?:r)] is [r] itself. *)
Module Regex.

Inductive regex : Type :=
| REps                     (* the empty pattern *)
| RBegin                   (* ^ *)
| REnd                     (* $ *)
| RChar (c : ascii)        (* a literal character *)
| RDot                     (* . *)
| RSeq (r1 r2 : regex)     (* r1r2 *)
| RAlt (r1 r2 : regex)     (* r1|r2 *)
| RStar (r : regex)        (* r* (greedy) *)
| RNegAhead (r : regex).   (* (?!r) *)

(** [.] matches anything but a line terminator (no [s] flag). *)
Definition is_line_terminator (c : ascii) : bool :=
  ((c =? "010") || (c =? "013"))%char.

(** [rmatch r pos s k]: [r] matches a prefix of [s], the input from
    offset [pos] on, and the continuation [k] accepts what is left.  An
    iteration of [r*] must consume input, so [length s] iterations are
    all a star can make. *)
Fixpoint rmatch (r : regex) (pos : nat) (s : string)
    (k : nat -> string -> bool) {struct r} : bool :=
  match r with
  | REps => k pos s
  | RBegin => (pos =? 0)%nat && k pos s
  | REnd =>
      match s with
      | EmptyString => k pos s
      | String _ _ => false
      end
  | RChar c =>
      match s with
      | EmptyString => false
      | String c' s' => (c' =? c)%char && k (S pos) s'
      end
  | RDot =>
      match s with
      | EmptyString => false
      | String c' s' => negb (is_line_terminator c') && k (S pos) s'
      end
  | RSeq r1 r2 => rmatch r1 pos s (fun pos' s' => rmatch r2 pos' s' k)
  | RAlt r1 r2 => rmatch r1 pos s k || rmatch r2 pos s k
  | RStar r1 =>
      (fix star (fuel pos : nat) (s : string) {struct fuel} : bool :=
         rmatch r1 pos s
           (fun pos' s' =>
              match fuel with
              | O => false
              | S fuel' => (pos <? pos')%nat && star fuel' pos' s'
              end)
         || k pos s)
        (String.length s) pos s
  | RNegAhead r1 => negb (rmatch r1 pos s (fun _ _ => true)) && k pos s
  end.

(** A literal string, character by character. *)
Fixpoint lit (s : string) : regex :=
  match s with
  | EmptyString => REps
  | String c s' => RSeq (RChar c) (lit s')
  end.

(** [r.test(s)] for a pattern without flags: a match is tried at every
    offset, from the left. *)
Fixpoint test_from (r : regex) (pos : nat) (s : string) : bool :=
  rmatch r pos s (fun _ _ => true) ||
  match s with
  | EmptyString => false
  | String _ s' => test_from r (S pos) s'
  end.

Definition test (r : regex) (s : string) : bool := test_from r 0 s.

End Regex.

(* ================================================================== *)
(** * endpoint-validation.ts *)
(* ================================================================== *)

(** [/^\/graphql\/(?!system(?:\/|$)).*/] *)
Definition GRAPHQL_SUBPATH : Regex.regex :=
  Regex.RSeq Regex.RBegin
    (Regex.RSeq (Regex.lit "/graphql/")
       (Regex.RSeq
          (Regex.RNegAhead
             (Regex.RSeq (Regex.lit "system")
                (Regex.RAlt (Regex.RChar "/") Regex.REnd)))
          (Regex.RStar Regex.RDot))).

Definition invalid_endpoint : JSValue := error_body "Invalid endpoint.".

Definition createGraphQLEndpointValidation (req : Request) : Outcome :=
  if Regex.test GRAPHQL_SUBPATH (originalUrl req)
  then Send 400 invalid_endpoint
  else Next.

(* ================================================================== *)
(** * Status rewriter *)
(* ================================================================== *)

(** The response object, as far as the rewriter and a [send] touch it:
    the status code, and the bodies written out so far, each with the
    status it left under. *)
Record Response : Type := mkResponse {
  statusCode : Z;
  written : list (Z * JSValue)
}.

Definition set_statusCode (code : Z) (res : Response) : Response :=
  {| statusCode := code; written := written res |}.

(** An error of [@directus/errors]: [createError(code, message, status)]
    makes the class whose instances carry these three. *)
Record DirectusError : Type := createError {
  code : string;
  message : string;
  status : Z
}.

Definition NotFoundError : DirectusError :=
  createError "ROUTE_NOT_FOUND" "Not found." 404.

Section StatusRewrite.

(** [res.send] as the middleware finds it, bound to [res]. *)
Variable originalSend : JSValue -> Response -> Response.

(** The function the middleware installs as [res.send]. *)
Definition rewriting_send (req : Request) (body : JSValue)
    (res : Response) : Response :=
  if (statusCode res =? 403)%Z then
    let res := set_statusCode 404 res in
    let error := NotFoundError in
    originalSend
      (JObject
         [("errors",
           JArray
             [JObject
                [("message", JString (message error));
                 ("extensions",
                  JObject [("code", JString "ROUTE_NOT_FOUND");
                           ("path", JString (originalUrl req))])]])])
      res
  else originalSend body res.

(** The middleware replaces [res.send] and calls [next()]. *)
Definition createStatusRewriteMiddleware (req : Request)
    : (JSValue -> Response -> Response) * Outcome :=
  (rewriting_send req, Next).

End StatusRewrite.

(** A [send] that writes the body out under the current status. *)
Definition recording_send (body : JSValue) (res : Response) : Response :=
  {| statusCode := statusCode res;
     written := (written res ++ [(statusCode res, body)])%list |}.

(* ================================================================== *)
(** * A URL parser to run the origin check with *)
(* ================================================================== *)

Module UrlModel.

Fixpoint take_until (stop : ascii -> bool) (s : string) : string * string :=
  match s with
  | EmptyString => (EmptyString, EmptyString)
  | String c s' =>
      if stop c then (EmptyString, s)
      else let (a, b) := take_until stop s' in (String c a, b)
  end.

Fixpoint all_chars (p : ascii -> bool) (s : string) : bool :=
  match s with
  | EmptyString => true
  | String c s' => p c && all_chars p s'
  end.

Definition is_alpha (c : ascii) : bool :=
  let n := nat_of_ascii c in
  ((65 <=? n) && (n <=? 90) || (97 <=? n) && (n <=? 122))%nat.

Definition is_digit (c : ascii) : bool :=
  let n := nat_of_ascii c in ((48 <=? n) && (n <=? 57))%nat.

Definition is_scheme (s : string) : bool :=
  match s with
  | EmptyString => false
  | String c s' =>
      is_alpha c &&
      all_chars (fun c => is_alpha c || is_digit c ||
                          (c =? "+")%char || (c =? "-")%char || (c =? ".")%char) s'
  end.

Definition is_host_char (c : ascii) : bool :=
  is_alpha c || is_digit c || (c =? "-")%char || (c =? ".")%char.

(** The host name of [scheme://host[:port][/path][?query][#fragment]],
    lower-cased as the URL parser does; [None] for anything outside that
    shape. *)
Definition hostname (s : string) : option string :=
  let (scheme, rest) := take_until (fun c => (c =? ":")%char) s in
  if is_scheme scheme then
    match rest with
    | String ":" (String "/" (String "/" authority)) =>
        let (hostport, _) :=
          take_until (fun c => (c =? "/") || (c =? "?") || (c =? "#"))%char
                     authority in
        let (host, _) := take_until (fun c => (c =? ":")%char) hostport in
        if (host =? "") || negb (all_chars is_host_char host)
        then None
        else Some (toLowerCase host)
    | _ => None
    end
  else None.

End UrlModel.

(* ================================================================== *)
(** * index.ts *)
(* ================================================================== *)

(** The two variables the hook reads from [process.env], each
    [string | undefined]. *)
Record Env : Type := mkEnv {
  env_ALLOWED_ORIGINS : Header;   (* process.env.ALLOWED_ORIGINS *)
  env_PUBLIC_URL : Header         (* process.env.PUBLIC_URL *)
}.

(** [s.split(sep)] for a separator of one character. *)
Fixpoint split (sep : ascii) (s : string) : list string :=
  match s with
  | EmptyString => [EmptyString]
  | String c s' =>
      if (c =? sep)%char then EmptyString :: split sep s'
      else match split sep s' with
           | piece :: pieces => String c piece :: pieces
           | [] => [String c EmptyString]
           end
  end.

(** White space and line terminators among the code units below 256:
    TAB, LF, VT, FF, CR, SP and NBSP. *)
Definition is_white_space (c : ascii) : bool :=
  let n := nat_of_ascii c in
  ((n =? 9) || (n =? 10) || (n =? 11) || (n =? 12) || (n =? 13)
   || (n =? 32) || (n =? 160))%nat.

Fixpoint trimStart (s : string) : string :=
  match s with
  | EmptyString => EmptyString
  | String c s' => if is_white_space c then trimStart s' else s
  end.

Fixpoint trimEnd (s : string) : string :=
  match s with
  | EmptyString => EmptyString
  | String c s' =>
      match trimEnd s' with
      | EmptyString => if is_white_space c then EmptyString else String c EmptyString
      | rest => String c rest
      end
  end.

(** [s.trim()] *)
Definition trim (s : string) : string := trimEnd (trimStart s).

(** [process.env.ALLOWED_ORIGINS ? process.env.ALLOWED_ORIGINS.split(",")
    .map((origin) => origin.trim()) : []] *)
Definition ALLOWED_ORIGINS (env : Env) : list string :=
  if present (env_ALLOWED_ORIGINS env)
  then map (fun origin => trim origin)
           (split "," (to_str (env_ALLOWED_ORIGINS env)))
  else [].

(** [process.env.PUBLIC_URL || "http://localhost:8055"] *)
Definition REQUEST_URL (env : Env) : string :=
  to_str (hor (env_PUBLIC_URL env) (Some "http://localhost:8055")).

(** A layer of the Express application: a middleware, mounted on a path
    or on every path. *)
Record Layer : Type := mkLayer {
  mount : option string;
  handler : Request -> Console Outcome
}.

(** A middleware that writes nothing to the console. *)
Definition quiet (mw : Request -> Outcome) : Request -> Console Outcome :=
  fun req => ret (mw req).

(** [app.use(handler)] and [app.use(path, handler)] add a layer after the
    ones the application has. *)
Definition app_use (mount : option string) (handler : Request -> Console Outcome)
    (app : list Layer) : list Layer :=
  (app ++ [mkLayer mount handler])%list.

Section Hook.

Variable url_hostname : string -> option string.

(** Express's test of a mount path against the path of a request. *)
Variable mount_matches : string -> Request -> bool.

(** The handler of [init("routes.before", ...)]: the four layers, in the
    order of the source, and the line it logs. *)
Definition routes_before (env : Env) (app : list Layer)
    : Console (list Layer) :=
  let ALLOWED_ORIGINS := ALLOWED_ORIGINS env in
  let REQUEST_URL := REQUEST_URL env in
  let app :=
    app_use None
      (createCheckOriginMiddleware url_hostname ALLOWED_ORIGINS REQUEST_URL) app in
  let app := app_use (Some "/graphql") (quiet createGraphQLPropertyValidation) app in
  let app := app_use (Some "/auth/login") (quiet createAuthLoginPropertyValidation) app in
  let app := app_use None (quiet createGraphQLEndpointValidation) app in
  console_log "--- [init:routes.before] ASUS Press Custom Middleware ---" ;;
  ret app.

(** Express runs the layers in the order of their registration, skips a
    mounted layer when its path does not match, and stops at the first
    middleware that does not call [next()]. *)
Fixpoint dispatch (app : list Layer) (req : Request) : Console Outcome :=
  match app with
  | [] => ret Next
  | layer :: rest =>
      let applies :=
        match mount layer with
        | Some path => mount_matches path req
        | None => true
        end in
      if applies then
        bind (handler layer req)
             (fun outcome =>
                match outcome with
                | Next => dispatch rest req
                | _ => ret outcome
                end)
      else dispatch rest req
  end.

(** A request through the layers the hook registers. *)
Definition gatekeeper (env : Env) (req : Request) : Outcome :=
  decision (dispatch (decision (routes_before env [])) req).

End Hook.

(** [res.status(code).send(payload)] through a given [send]; a middleware
    that calls [next()] or throws leaves the response as it is. *)
Definition respond (send : JSValue -> Response -> Response)
    (outcome : Outcome) (res : Response) : Response :=
  match outcome with
  | Send code payload => send payload (set_statusCode code res)
  | Next | Throw => res
  end.

(** The console lines of a run, and its warnings. *)
Definition output {A} (m : Console A) : list LogLine := fst m.

Definition is_warning (line : LogLine) : bool :=
  match line with
  | Warn _ => true
  | Log _ => false
  end.

(** A string has no occurrence of the character [c]. *)
Fixpoint lacks (c : ascii) (s : string) : bool :=
  match s with
  | EmptyString => true
  | String c' s' => negb (c' =? c)%char && lacks c s'
  end.

(** The first and the last character of a string, if any. *)
Definition first_char (s : string) : option ascii :=
  match s with
  | EmptyString => None
  | String c _ => Some c
  end.

Fixpoint last_char (s : string) : option ascii :=
  match s with
  | EmptyString => None
  | String c EmptyString => Some c
  | String _ s' => last_char s'
  end.

(** No white space at either end. *)
Definition trimmed (s : string) : Prop :=
  (forall c, first_char s = Some c -> is_white_space c = false)
  /\ (forall c, last_char s = Some c -> is_white_space c = false).

(* ================================================================== *)
(** * Vocabulary of the statements *)
(* ================================================================== *)

(** [strip_prefix p s]: what is left of [s] after its prefix [p]. *)
Fixpoint strip_prefix (p s : string) : option string :=
  match p, s with
  | EmptyString, _ => Some s
  | String _ _, EmptyString => None
  | String a p', String b s' => if (b =? a)%char then strip_prefix p' s' else None
  end.

(** [sub] occurs in [s] up to the case of letters. *)
Definition contains_ignoring_case (s sub : string) : Prop :=
  exists pre mid post,
    s = pre ++ mid ++ post /\ toLowerCase mid = toLowerCase sub.

(** A content type of a form submission occurs in the header value. *)
Definition form_like (contentType : string) : Prop :=
  exists formContentType,
    In formContentType
       ["application/x-www-form-urlencoded"; "multipart/form-data"; "text/plain"]
    /\ contains_ignoring_case contentType formContentType.

(** A request carries one of the safe methods. *)
Definition safe_method (req : Request) : Prop :=
  method req = "GET" \/ method req = "HEAD" \/ method req = "OPTIONS".

(** The source URL in the words of the specification: the [Origin]
    header if the request has one, else its [Referer] header. *)
Definition stated_source (req : Request) : Header :=
  match h_origin req with
  | Some o => Some o
  | None => h_referer req
  end.

(** An allowed origin matches a host name: by its own host name when it
    parses as a URL, as a plain string when it does not. *)
Definition entry_matches (url_hostname : string -> option string)
    (sourceHost allowedOrigin : string) : Prop :=
  match url_hostname allowedOrigin with
  | Some allowedHost => sourceHost = allowedHost
  | None => sourceHost = allowedOrigin
  end.

(** CSRF mode read with "a header is present" as "the request carries the
    header", whatever its value. *)
Definition csrf_mode_as_stated (url_hostname : string -> option string)
    (requestUrl : string) (req : Request) : Prop :=
  ~ safe_method req ->
  (h_origin req = None ->
   checkOrigin url_hostname [] requestUrl req = Next)
  /\ (h_origin req = Some requestUrl ->
      checkOrigin url_hostname [] requestUrl req = Next)
  /\ (forall o, h_origin req = Some o -> o <> requestUrl ->
      (exists ct, h_content_type req = Some ct /\ form_like ct)
      \/ h_content_type req = None ->
      exists payload,
        checkOrigin url_hostname [] requestUrl req = Send 403 payload)
  /\ (forall o ct, h_origin req = Some o -> o <> requestUrl ->
      h_content_type req = Some ct -> ~ form_like ct ->
      checkOrigin url_hostname [] requestUrl req = Next).

(** The hard reject of an unparseable source URL, the source URL being
    [stated_source]. *)
Definition unparseable_source_as_stated (url_hostname : string -> option string)
    (allowedOrigins : list string) (requestUrl : string) (req : Request)
    : Prop :=
  ~ safe_method req ->
  allowedOrigins <> [] ->
  forall src, stated_source req = Some src -> url_hostname src = None ->
  exists payload,
    checkOrigin url_hostname allowedOrigins requestUrl req = Send 403 payload.

(** Precedence of [Origin]: two requests that both carry an Origin and a
    Referer header, with the same Origin, are decided alike. *)
Definition origin_precedence_as_stated (url_hostname : string -> option string)
    (allowedOrigins : list string) (requestUrl : string)
    (req1 req2 : Request) : Prop :=
  ~ safe_method req1 ->
  ~ safe_method req2 ->
  allowedOrigins <> [] ->
  (exists origin, h_origin req1 = Some origin /\ h_origin req2 = Some origin) ->
  h_referer req1 <> None ->
  h_referer req2 <> None ->
  checkOrigin url_hostname allowedOrigins requestUrl req1
  = checkOrigin url_hostname allowedOrigins requestUrl req2.

(* ================================================================== *)
(** * Strings *)
(* ================================================================== *)

Lemma includes_In (xs : list string) (x : string) :
  includes xs x = true <-> In x xs.
Proof.
  unfold includes. rewrite existsb_exists. split.
  - intros [y [Hin Heq]]. apply String.eqb_eq in Heq. now subst.
  - intros Hin. exists x. split; [assumption | apply String.eqb_refl].
Qed.

Lemma includes_not_In (xs : list string) (x : string) :
  includes xs x = false <-> ~ In x xs.
Proof.
  rewrite <- includes_In. destruct (includes xs x); split; congruence.
Qed.

Lemma safe_method_includes (req : Request) :
  includes SAFE_METHODS (method req) = true <-> safe_method req.
Proof.
  rewrite includes_In. unfold safe_method, SAFE_METHODS. simpl.
  intuition congruence.
Qed.

Lemma unsafe_method_includes (req : Request) :
  ~ safe_method req -> includes SAFE_METHODS (method req) = false.
Proof.
  intros H. destruct (includes SAFE_METHODS (method req)) eqn:E; [|reflexivity].
  apply safe_method_includes in E. contradiction.
Qed.

Lemma present_Some (s : string) : present (Some s) = true <-> s <> "".
Proof.
  simpl. destruct (String.eqb_spec s ""); simpl; split; congruence.
Qed.

Lemma present_false (h : Header) :
  present h = false <-> h = None \/ h = Some "".
Proof.
  destruct h as [s|]; simpl.
  - destruct (String.eqb_spec s ""); simpl; subst; split; intros H;
      try discriminate; auto.
    destruct H as [H|H]; congruence.
  - split; auto.
Qed.

Lemma prefix_app (p s : string) :
  prefix p s = true <-> exists t, s = p ++ t.
Proof.
  revert s. induction p as [|a p IH]; intros s.
  - destruct s; simpl; (split; [intros _; eexists; reflexivity | reflexivity]).
  - destruct s as [|b s]; simpl.
    + split; [discriminate | intros [t Ht]; discriminate].
    + destruct (ascii_dec a b) as [->|Hne].
      * rewrite IH. split; intros [t Ht]; exists t; congruence.
      * split; [discriminate | intros [t Ht]; congruence].
Qed.

Lemma str_includes_app (s sub : string) :
  str_includes s sub = true <-> exists pre post, s = pre ++ sub ++ post.
Proof.
  induction s as [|c s IH]; cbn [str_includes].
  - rewrite orb_false_r, prefix_app. split.
    + intros [t Ht]. now exists "", t.
    + intros [pre [post H]]. destruct pre; simpl in H; [now exists post|discriminate].
  - rewrite orb_true_iff, prefix_app, IH. split.
    + intros [[t Ht] | [pre [post H]]].
      * now exists "", t.
      * exists (String c pre), post. simpl. now rewrite H.
    + intros [pre [post H]]. destruct pre as [|c' pre]; simpl in H.
      * left. now exists post.
      * right. exists pre, post. congruence.
Qed.

Lemma toLowerCase_app (a b : string) :
  toLowerCase (a ++ b) = toLowerCase a ++ toLowerCase b.
Proof. induction a as [|c a IH]; simpl; [reflexivity | now rewrite IH]. Qed.

Lemma toLowerCase_app_inv (s a b : string) :
  toLowerCase s = a ++ b ->
  exists s1 s2, s = s1 ++ s2 /\ toLowerCase s1 = a /\ toLowerCase s2 = b.
Proof.
  revert s. induction a as [|c a IH]; intros s H; simpl in H.
  - now exists "", s.
  - destruct s as [|d s]; simpl in H; [discriminate|].
    injection H as Hc Hs. destruct (IH _ Hs) as [s1 [s2 [E [H1 H2]]]].
    exists (String d s1), s2. simpl. repeat split; congruence.
Qed.

Lemma str_includes_lower (s sub : string) :
  toLowerCase sub = sub ->
  str_includes (toLowerCase s) sub = true <-> contains_ignoring_case s sub.
Proof.
  intros Hsub. rewrite str_includes_app. unfold contains_ignoring_case. split.
  - intros [pre [post H]].
    apply toLowerCase_app_inv in H as [s1 [s2 [E [H1 H2]]]].
    apply toLowerCase_app_inv in H2 as [s3 [s4 [E' [H3 H4]]]].
    exists s1, s3, s4. subst. split; [reflexivity | congruence].
  - intros [pre [mid [post [E H]]]].
    exists (toLowerCase pre), (toLowerCase post).
    subst s. rewrite !toLowerCase_app. congruence.
Qed.

Lemma hasFormLikeHeader_form_like (ct : string) :
  hasFormLikeHeader (Some ct) = true <-> form_like ct.
Proof.
  unfold hasFormLikeHeader, form_like, FORM_CONTENT_TYPES.
  destruct (present (Some ct)) eqn:P.
  - rewrite existsb_exists. simpl to_str. split.
    + intros [f [Hin H]]. exists f. split; [exact Hin|].
      apply str_includes_lower; [|exact H].
      simpl in Hin. destruct Hin as [<-|[<-|[<-|[]]]]; reflexivity.
    + intros [f [Hin H]]. exists f. split; [exact Hin|].
      apply str_includes_lower; [|exact H].
      simpl in Hin. destruct Hin as [<-|[<-|[<-|[]]]]; reflexivity.
  - apply present_false in P as [P|P]; [discriminate|].
    injection P as ->. split; [discriminate|].
    intros [f [Hin [pre [mid [post [E H]]]]]].
    destruct pre; [|discriminate]. destruct mid; [|discriminate].
    simpl in Hin, H. destruct Hin as [<-|[<-|[<-|[]]]]; discriminate.
Qed.

Lemma strip_prefix_app (p s t : string) :
  strip_prefix p s = Some t <-> s = p ++ t.
Proof.
  revert s. induction p as [|a p IH]; intros s; simpl.
  - split; congruence.
  - destruct s as [|b s]; [split; discriminate|].
    destruct (Ascii.eqb_spec b a) as [->|Hne].
    + rewrite IH. split; congruence.
    + split; [discriminate | congruence].
Qed.

(* ================================================================== *)
(** * The origin and CSRF check *)
(* ================================================================== *)

Section CheckOriginFacts.

Variable url_hostname : string -> option string.

(** The decision of the middleware, without its console output. *)
Lemma checkOrigin_unfold allowedOrigins requestUrl req :
  checkOrigin url_hostname allowedOrigins requestUrl req =
  if includes SAFE_METHODS (method req) then Next
  else if (0 <? List.length allowedOrigins)%nat then
    if negb (present (h_origin req)) && negb (present (h_referer req)) then Next
    else if negb (present (hor (h_origin req) (h_referer req))) then Next
    else match url_hostname (to_str (hor (h_origin req) (h_referer req))) with
         | Some sourceHost =>
             if negb (existsb (origin_matches url_hostname sourceHost) allowedOrigins)
             then Send 403 unauthorized else Next
         | None => Send 403 unauthorized
         end
  else if negb (present (h_origin req)) then Next
  else if present (h_content_type req) then
    if hasFormLikeHeader (h_content_type req)
       && negb (strict_eq (h_origin req) requestUrl)
    then Send 403 (forbidden (method req)) else Next
  else if negb (strict_eq (h_origin req) requestUrl)
    then Send 403 (forbidden (method req)) else Next.
Proof.
  unfold checkOrigin, createCheckOriginMiddleware, decision, bind,
    console_log, console_warn, ret.
  repeat match goal with
         | |- context [if ?c then _ else _] => destruct c
         | |- context [match url_hostname ?s with _ => _ end] =>
             destruct (url_hostname s)
         end; reflexivity.
Qed.

Lemma allowlist_mode_length (allowedOrigins : list string) :
  allowedOrigins <> [] -> (0 <? List.length allowedOrigins)%nat = true.
Proof. destruct allowedOrigins; [congruence | reflexivity]. Qed.

Lemma origin_matches_spec (sourceHost allowedOrigin : string) :
  origin_matches url_hostname sourceHost allowedOrigin = true <->
  match url_hostname allowedOrigin with
  | Some allowedHost => sourceHost = allowedHost
  | None => sourceHost = allowedOrigin
  end.
Proof.
  unfold origin_matches. destruct (url_hostname allowedOrigin);
    apply String.eqb_eq.
Qed.

Lemma some_origin_matches (sourceHost : string) (allowedOrigins : list string) :
  existsb (origin_matches url_hostname sourceHost) allowedOrigins = true <->
  exists allowedOrigin,
    In allowedOrigin allowedOrigins /\
    match url_hostname allowedOrigin with
    | Some allowedHost => sourceHost = allowedHost
    | None => sourceHost = allowedOrigin
    end.
Proof.
  rewrite existsb_exists. split; intros [e [Hin H]]; exists e;
    (split; [exact Hin | now apply origin_matches_spec]).
Qed.

(** With a truthy [Origin], the source URL is the [Origin]. *)
Lemma hor_origin (o : string) (referer : Header) :
  o <> "" -> hor (Some o) referer = Some o.
Proof. intros H. unfold hor. now rewrite (proj2 (present_Some o) H). Qed.

(** The allowlist decision once the source URL is known. *)
Lemma allowlist_decision allowedOrigins requestUrl req src :
  ~ safe_method req ->
  allowedOrigins <> [] ->
  src <> "" ->
  hor (h_origin req) (h_referer req) = Some src ->
  checkOrigin url_hostname allowedOrigins requestUrl req =
  match url_hostname src with
  | Some sourceHost =>
      if existsb (origin_matches url_hostname sourceHost) allowedOrigins
      then Next else Send 403 unauthorized
  | None => Send 403 unauthorized
  end.
Proof.
  intros Hm Ha Hsrc Hsource. rewrite checkOrigin_unfold.
  rewrite (unsafe_method_includes _ Hm), (allowlist_mode_length _ Ha).
  rewrite Hsource.
  assert (Hp : present (Some src) = true) by now apply present_Some.
  rewrite Hp. simpl negb. cbv iota.
  assert (Hor : negb (present (h_origin req)) && negb (present (h_referer req))
                = false).
  { unfold hor in Hsource.
    destruct (present (h_origin req)) eqn:Po; [reflexivity|].
    rewrite Hsource, Hp. reflexivity. }
  rewrite Hor. simpl to_str.
  destruct (url_hostname src); [|reflexivity].
  now destruct (existsb _ _).
Qed.

End CheckOriginFacts.

Lemma post_is_unsafe (u : string) (o r c : Header) (b : JSValue) :
  ~ safe_method (mkRequest "POST" u o r c b).
Proof. unfold safe_method; simpl; intros [H|[H|H]]; discriminate. Qed.

Lemma entry_matches_origin_matches url_hostname sourceHost allowedOrigins :
  existsb (origin_matches url_hostname sourceHost) allowedOrigins = true <->
  exists allowedOrigin,
    In allowedOrigin allowedOrigins /\
    entry_matches url_hostname sourceHost allowedOrigin.
Proof. apply some_origin_matches. Qed.

(** C3. Safe methods: a GET, HEAD or OPTIONS request passes the origin and
    CSRF check whatever its Origin, Referer and Content-Type headers are,
    and whether the list of allowed origins is empty or not. *)
Theorem safe_methods_always_pass
    (url_hostname : string -> option string)
    (allowedOrigins : list string) (requestUrl : string) (req : Request) :
  safe_method req ->
  checkOrigin url_hostname allowedOrigins requestUrl req = Next.
Proof.
  intros H. rewrite checkOrigin_unfold.
  now rewrite (proj2 (safe_method_includes req) H).
Qed.

Lemma safe_methods_always_pass_witness :
  safe_method (mkRequest "GET" "/server/ping" (Some "https://malicious-site.com")
                 None (Some "text/plain") JUndefined)
  /\ checkOrigin UrlModel.hostname ["https://asus-press-cms.tenten.dev"]
       "http://localhost:8055"
       (mkRequest "GET" "/server/ping" (Some "https://malicious-site.com")
          None (Some "text/plain") JUndefined) = Next.
Proof.
  split.
  - left. reflexivity.
  - apply safe_methods_always_pass. left. reflexivity.
Defined.

(** C1. Allowlist mode: for a request with a method that is not safe and a
    non-empty list of allowed origins, (a) with neither an Origin nor a
    Referer header the check passes; (b) when the source URL (the Origin,
    else the Referer) parses and its host name matches an allowed origin
    (by the host name of the entry when the entry parses as a URL, else by
    string equality with the entry) the check passes; (c) when it parses
    and no entry matches, the check answers 403 with the body
    [{ error: "Access denied: unauthorized origin." }].  The URL parser is
    any parser that rejects the empty string, as [new URL] does. *)
Theorem allowlist_mode_decision
    (url_hostname : string -> option string)
    (url_empty : url_hostname "" = None)
    (allowedOrigins : list string) (requestUrl : string) (req : Request) :
  ~ safe_method req ->
  allowedOrigins <> [] ->
  (h_origin req = None -> h_referer req = None ->
   checkOrigin url_hostname allowedOrigins requestUrl req = Next)
  /\ (forall src sourceHost,
        stated_source req = Some src ->
        url_hostname src = Some sourceHost ->
        ((exists allowedOrigin,
             In allowedOrigin allowedOrigins /\
             entry_matches url_hostname sourceHost allowedOrigin) ->
         checkOrigin url_hostname allowedOrigins requestUrl req = Next)
        /\ (~ (exists allowedOrigin,
                  In allowedOrigin allowedOrigins /\
                  entry_matches url_hostname sourceHost allowedOrigin) ->
            checkOrigin url_hostname allowedOrigins requestUrl req
            = Send 403
                (JObject [("error", JString "Access denied: unauthorized origin.")]))).
Proof.
  intros Hm Ha. split.
  - intros Ho Hr. rewrite checkOrigin_unfold.
    rewrite (unsafe_method_includes _ Hm), (allowlist_mode_length _ Ha).
    now rewrite Ho, Hr.
  - intros src sourceHost Hsrc Hhost.
    assert (Hne : src <> "") by (intros ->; congruence).
    assert (Hor : hor (h_origin req) (h_referer req) = Some src).
    { unfold stated_source in Hsrc. destruct (h_origin req) as [o|] eqn:Eo.
      - injection Hsrc as ->. now apply hor_origin.
      - exact Hsrc. }
    rewrite (allowlist_decision url_hostname _ requestUrl _ _ Hm Ha Hne Hor), Hhost.
    split; intros H.
    + apply entry_matches_origin_matches in H. now rewrite H.
    + destruct (existsb _ _) eqn:E; [|reflexivity].
      apply entry_matches_origin_matches in E. contradiction.
Qed.

Lemma allowlist_mode_decision_witness :
  checkOrigin UrlModel.hostname ["https://asus-press-cms.tenten.dev"]
    "http://localhost:8055"
    (mkRequest "POST" "/auth/login" None (Some "https://malicious-site.com/page")
       (Some "application/json") JUndefined)
  = Send 403 (JObject [("error", JString "Access denied: unauthorized origin.")]).
Proof.
  refine (proj2 (proj2 (allowlist_mode_decision UrlModel.hostname eq_refl
            ["https://asus-press-cms.tenten.dev"] "http://localhost:8055"
            (mkRequest "POST" "/auth/login" None
               (Some "https://malicious-site.com/page")
               (Some "application/json") JUndefined)
            (post_is_unsafe _ _ _ _ _) _)
          "https://malicious-site.com/page" "malicious-site.com"
          eq_refl eq_refl) _).
  - discriminate.
  - intros [e [[<-|[]] H]]. vm_compute in H. discriminate.
Defined.

Lemma empty_not_form_like : ~ form_like "".
Proof.
  intros H. apply hasFormLikeHeader_form_like in H. discriminate.
Qed.

(** C2, as stated, fails on headers that are present but empty.  An empty
    [Content-Type] on a cross-origin request is no form content type, yet
    the request is rejected; an empty [Origin] differs from the base URL,
    yet a form submission with it passes. *)
Lemma csrf_mode_empty_header_counterexample :
  ~ csrf_mode_as_stated UrlModel.hostname "http://localhost:8055"
      (mkRequest "POST" "/auth/login" (Some "https://malicious-site.com") None
         (Some "") JUndefined)
  /\ ~ csrf_mode_as_stated UrlModel.hostname "http://localhost:8055"
         (mkRequest "POST" "/auth/login" (Some "") None
            (Some "text/plain") JUndefined).
Proof.
  split; intros H; destruct (H (post_is_unsafe _ _ _ _ _)) as [_ [_ [H3 H4]]].
  - specialize (H4 "https://malicious-site.com" "" eq_refl).
    assert (E : checkOrigin UrlModel.hostname [] "http://localhost:8055"
                  (mkRequest "POST" "/auth/login"
                     (Some "https://malicious-site.com") None (Some "") JUndefined)
                = Next).
    { apply H4; [discriminate | reflexivity | exact empty_not_form_like]. }
    vm_compute in E. discriminate.
  - destruct (H3 "" eq_refl) as [payload E].
    + discriminate.
    + left. exists "text/plain". split; [reflexivity|].
      apply hasFormLikeHeader_form_like. reflexivity.
    + vm_compute in E. discriminate.
Qed.

(** C2, amended. CSRF mode (no allowed origins), for a request with a
    method that is not safe, a header counting as present when its value
    is not empty: (a) without an Origin (none, or an empty one) the check
    passes; (b) with the Origin equal to the base URL it passes, whatever
    the content type; (c) with another Origin and a Content-Type that
    contains a form content type up to case, or without a Content-Type
    (none, or an empty one), it answers 403; (d) with another Origin and a
    non-empty Content-Type that contains no form content type, it passes. *)
Theorem csrf_mode_decision
    (url_hostname : string -> option string)
    (requestUrl : string) (req : Request) :
  ~ safe_method req ->
  (h_origin req = None \/ h_origin req = Some "" ->
   checkOrigin url_hostname [] requestUrl req = Next)
  /\ (h_origin req = Some requestUrl ->
      checkOrigin url_hostname [] requestUrl req = Next)
  /\ (forall o, h_origin req = Some o -> o <> "" -> o <> requestUrl ->
      (exists ct, h_content_type req = Some ct /\ form_like ct)
      \/ h_content_type req = None \/ h_content_type req = Some "" ->
      checkOrigin url_hostname [] requestUrl req
      = Send 403
          (JObject [("error",
                     JString ("Cross-site " ++ method req
                                ++ " form submissions are forbidden"))]))
  /\ (forall o ct, h_origin req = Some o -> o <> "" -> o <> requestUrl ->
      h_content_type req = Some ct -> ct <> "" -> ~ form_like ct ->
      checkOrigin url_hostname [] requestUrl req = Next).
Proof.
  intros Hm.
  assert (Hunfold := checkOrigin_unfold url_hostname [] requestUrl req).
  rewrite (unsafe_method_includes _ Hm) in Hunfold. simpl in Hunfold.
  rewrite Hunfold. clear Hunfold.
  split; [|split; [|split]].
  - intros H. apply present_false in H. now rewrite H.
  - intros H. rewrite H. simpl strict_eq. rewrite String.eqb_refl.
    rewrite andb_false_r. simpl.
    now destruct (negb (negb (requestUrl =? ""))), (present (h_content_type req)).
  - intros o Ho Hne Hcross Hct. rewrite Ho.
    rewrite (proj2 (present_Some o) Hne). simpl.
    rewrite (proj2 (String.eqb_neq o requestUrl) Hcross). simpl.
    destruct Hct as [[ct [Hct Hform]] | Hct].
    + rewrite Hct.
      rewrite (proj2 (hasFormLikeHeader_form_like ct) Hform).
      destruct (present (Some ct)); reflexivity.
    + apply present_false in Hct. now rewrite Hct.
  - intros o ct Ho Hne Hcross Hct Hctne Hform. rewrite Ho, Hct.
    rewrite (proj2 (present_Some o) Hne), (proj2 (present_Some ct) Hctne). simpl.
    destruct (hasFormLikeHeader (Some ct)) eqn:E; [|reflexivity].
    apply hasFormLikeHeader_form_like in E. contradiction.
Qed.

Lemma csrf_mode_decision_witness :
  checkOrigin UrlModel.hostname [] "http://localhost:8055"
    (mkRequest "POST" "/auth/login" (Some "https://malicious-site.com") None
       (Some "multipart/form-data; boundary=----WebKitFormBoundary") JUndefined)
  = Send 403
      (JObject [("error", JString "Cross-site POST form submissions are forbidden")]).
Proof.
  refine (proj1 (proj2 (proj2 (csrf_mode_decision UrlModel.hostname
            "http://localhost:8055"
            (mkRequest "POST" "/auth/login" (Some "https://malicious-site.com")
               None
               (Some "multipart/form-data; boundary=----WebKitFormBoundary")
               JUndefined)
            (post_is_unsafe _ _ _ _ _))))
          "https://malicious-site.com" eq_refl _ _ _).
  - discriminate.
  - discriminate.
  - left. eexists. split; [reflexivity|].
    apply hasFormLikeHeader_form_like. reflexivity.
Defined.

(** C4, as stated, fails on an empty [Origin] header: the empty string is
    no URL, and the request passes as one without Origin and Referer. *)
Lemma unparseable_source_empty_origin_counterexample :
  ~ unparseable_source_as_stated UrlModel.hostname
      ["https://asus-press-cms.tenten.dev"] "http://localhost:8055"
      (mkRequest "POST" "/auth/login" (Some "") None
         (Some "application/json") JUndefined).
Proof.
  intros H.
  destruct (H (post_is_unsafe _ _ _ _ _) ltac:(discriminate) "" eq_refl eq_refl)
    as [payload E].
  vm_compute in E. discriminate.
Qed.

(** C4, amended. In allowlist mode, for a request with a method that is
    not safe whose source URL (the Origin value when it is not empty, else
    the Referer value when it is not empty) fails to parse as a URL, the
    check answers 403 with the body
    [{ error: "Access denied: unauthorized origin." }]; it never passes the
    request on. *)
Theorem unparseable_source_rejected
    (url_hostname : string -> option string)
    (allowedOrigins : list string) (requestUrl : string) (req : Request)
    (src : string) :
  ~ safe_method req ->
  allowedOrigins <> [] ->
  src <> "" ->
  h_origin req = Some src
  \/ ((h_origin req = None \/ h_origin req = Some "") /\ h_referer req = Some src) ->
  url_hostname src = None ->
  checkOrigin url_hostname allowedOrigins requestUrl req
  = Send 403 (JObject [("error", JString "Access denied: unauthorized origin.")]).
Proof.
  intros Hm Ha Hne Hsrc Hparse.
  assert (Hor : hor (h_origin req) (h_referer req) = Some src).
  { destruct Hsrc as [Ho | [Ho Hr]].
    - rewrite Ho. now apply hor_origin.
    - apply present_false in Ho. unfold hor. now rewrite Ho. }
  rewrite (allowlist_decision url_hostname _ requestUrl _ _ Hm Ha Hne Hor).
  now rewrite Hparse.
Qed.

Lemma unparseable_source_rejected_witness :
  checkOrigin UrlModel.hostname ["https://asus-press-cms.tenten.dev"]
    "http://localhost:8055"
    (mkRequest "POST" "/auth/login" (Some "") (Some "not a url")
       (Some "application/json") JUndefined)
  = Send 403 (JObject [("error", JString "Access denied: unauthorized origin.")]).
Proof.
  apply (unparseable_source_rejected UrlModel.hostname
           ["https://asus-press-cms.tenten.dev"] "http://localhost:8055"
           (mkRequest "POST" "/auth/login" (Some "") (Some "not a url")
              (Some "application/json") JUndefined)
           "not a url").
  - apply post_is_unsafe.
  - discriminate.
  - discriminate.
  - right. split; [right|]; reflexivity.
  - reflexivity.
Defined.

(** C5, as stated, fails on an empty [Origin] header: the Referer is then
    the source URL, and an allowed and a foreign Referer are told apart. *)
Lemma origin_precedence_empty_origin_counterexample :
  ~ origin_precedence_as_stated UrlModel.hostname
      ["https://asus-press-cms.tenten.dev"] "http://localhost:8055"
      (mkRequest "POST" "/auth/login" (Some "")
         (Some "https://asus-press-cms.tenten.dev")
         (Some "application/json") JUndefined)
      (mkRequest "POST" "/auth/login" (Some "")
         (Some "https://malicious-site.com")
         (Some "application/json") JUndefined).
Proof.
  intros H.
  assert (E := H (post_is_unsafe _ _ _ _ _) (post_is_unsafe _ _ _ _ _)
                 ltac:(discriminate)
                 (ex_intro _ "" (conj eq_refl eq_refl))
                 ltac:(discriminate) ltac:(discriminate)).
  vm_compute in E. discriminate.
Qed.

(** C5, amended. In allowlist mode, for a request with a method that is
    not safe, a non-empty Origin header alone decides: the decision is the
    verdict on the Origin value, whatever the Referer header is, so two
    such requests with the same Origin are decided alike.  (An empty
    Origin counts as absent, and the Referer is consulted.) *)
Theorem origin_takes_precedence
    (url_hostname : string -> option string)
    (allowedOrigins : list string) (requestUrl : string)
    (req1 req2 : Request) (origin : string) :
  ~ safe_method req1 ->
  ~ safe_method req2 ->
  allowedOrigins <> [] ->
  origin <> "" ->
  h_origin req1 = Some origin ->
  h_origin req2 = Some origin ->
  checkOrigin url_hostname allowedOrigins requestUrl req1
  = match url_hostname origin with
    | Some sourceHost =>
        if existsb (origin_matches url_hostname sourceHost) allowedOrigins
        then Next
        else Send 403 (JObject [("error", JString "Access denied: unauthorized origin.")])
    | None =>
        Send 403 (JObject [("error", JString "Access denied: unauthorized origin.")])
    end
  /\ checkOrigin url_hostname allowedOrigins requestUrl req1
     = checkOrigin url_hostname allowedOrigins requestUrl req2.
Proof.
  intros Hm1 Hm2 Ha Hne Ho1 Ho2.
  assert (H : forall req, ~ safe_method req -> h_origin req = Some origin ->
              hor (h_origin req) (h_referer req) = Some origin).
  { intros req _ Ho. rewrite Ho. now apply hor_origin. }
  rewrite (allowlist_decision url_hostname _ requestUrl _ _ Hm1 Ha Hne (H _ Hm1 Ho1)).
  rewrite (allowlist_decision url_hostname _ requestUrl _ _ Hm2 Ha Hne (H _ Hm2 Ho2)).
  split; reflexivity.
Qed.

Lemma origin_takes_precedence_witness :
  checkOrigin UrlModel.hostname ["https://asus-press-cms.tenten.dev"]
    "http://localhost:8055"
    (mkRequest "POST" "/auth/login" (Some "https://asus-press-cms.tenten.dev")
       (Some "https://malicious-site.com") (Some "application/json") JUndefined)
  = checkOrigin UrlModel.hostname ["https://asus-press-cms.tenten.dev"]
      "http://localhost:8055"
      (mkRequest "POST" "/auth/login" (Some "https://asus-press-cms.tenten.dev")
         (Some "https://asus-press-cms.tenten.dev") (Some "application/json")
         JUndefined).
Proof.
  apply (origin_takes_precedence UrlModel.hostname
           ["https://asus-press-cms.tenten.dev"] "http://localhost:8055"
           (mkRequest "POST" "/auth/login" (Some "https://asus-press-cms.tenten.dev")
              (Some "https://malicious-site.com") (Some "application/json")
              JUndefined)
           (mkRequest "POST" "/auth/login" (Some "https://asus-press-cms.tenten.dev")
              (Some "https://asus-press-cms.tenten.dev") (Some "application/json")
              JUndefined)
           "https://asus-press-cms.tenten.dev").
  - apply post_is_unsafe.
  - apply post_is_unsafe.
  - discriminate.
  - discriminate.
  - reflexivity.
  - reflexivity.
Defined.

(** C10. Noninterference: two requests with the same method and the same
    Origin, Referer and Content-Type headers (each absent in both or of
    the same value in both) get the same decision under the same allowed
    origins and base URL; the path and the body have no influence. *)
Theorem decision_ignores_path_and_body
    (url_hostname : string -> option string)
    (allowedOrigins : list string) (requestUrl : string)
    (req1 req2 : Request) :
  method req1 = method req2 ->
  h_origin req1 = h_origin req2 ->
  h_referer req1 = h_referer req2 ->
  h_content_type req1 = h_content_type req2 ->
  checkOrigin url_hostname allowedOrigins requestUrl req1
  = checkOrigin url_hostname allowedOrigins requestUrl req2.
Proof.
  intros Hm Ho Hr Hc. rewrite !checkOrigin_unfold.
  now rewrite Hm, Ho, Hr, Hc.
Qed.

Lemma decision_ignores_path_and_body_witness :
  checkOrigin UrlModel.hostname [] "http://localhost:8055"
    (mkRequest "POST" "/auth/login" (Some "https://malicious-site.com") None
       (Some "text/plain") (JObject [("email", JString "test@test.com")]))
  = checkOrigin UrlModel.hostname [] "http://localhost:8055"
      (mkRequest "POST" "/graphql" (Some "https://malicious-site.com") None
         (Some "text/plain") JUndefined).
Proof.
  apply decision_ignores_path_and_body; reflexivity.
Defined.

(* ================================================================== *)
(** * The body property checks *)
(* ================================================================== *)

Lemma Object_keys_body (b : JSValue) :
  Object_keys (or_else b (JObject [])) = Some (own_keys b).
Proof.
  unfold or_else.
  destruct b as [| |[|]|n|s|items|fields]; simpl; try reflexivity.
  - now destruct (n =? 0)%Z.
  - now destruct s.
Qed.

Lemma every_false_iff {A} (f : A -> bool) (l : list A) :
  negb (forallb f l) = true <-> exists x, In x l /\ f x = false.
Proof.
  induction l as [|a l IH]; simpl.
  - split; [discriminate | intros [x [[] _]]].
  - destruct (f a) eqn:Fa; simpl.
    + rewrite IH. split; intros [x [Hin Hx]]; exists x.
      * auto.
      * destruct Hin as [->|Hin]; [congruence | auto].
    + split; [intros _; exists a; auto | reflexivity].
Qed.

Lemma property_check_spec (allowedProps : list string) (b : JSValue)
    (outcome : Outcome) :
  outcome =
    (if negb (forallb (fun prop => includes allowedProps prop) (own_keys b))
     then Send 400 invalid_properties else Next) ->
  (outcome = Send 400 invalid_properties <->
   exists key, In key (own_keys b) /\ ~ In key allowedProps)
  /\ (outcome = Next <->
      forall key, In key (own_keys b) -> In key allowedProps).
Proof.
  intros ->.
  destruct (negb (forallb _ _)) eqn:E.
  - pose proof (proj1 (every_false_iff _ _) E) as [key [Hin Hkey]].
    apply includes_not_In in Hkey. split; split; intros H.
    + now exists key.
    + reflexivity.
    + discriminate.
    + exfalso. auto.
  - apply negb_false_iff in E. rewrite forallb_forall in E.
    split; split; intros H.
    + discriminate.
    + destruct H as [key [Hin Hkey]]. exfalso. apply Hkey.
      apply includes_In. auto.
    + intros key Hin. apply includes_In. auto.
    + reflexivity.
Qed.

(** C7. Each body property check answers 400 with the body
    [{ error: "Request contains invalid properties." }] exactly when some
    key of the request body lies outside the allowed set of its route
    (query, variables, operationName for GraphQL; email, password, mode
    for the login), and passes the request on exactly when no key does;
    an absent or empty body passes. *)
Theorem property_checks_reject_exactly_foreign_keys (req : Request) :
  (createGraphQLPropertyValidation req
   = Send 400 (JObject [("error", JString "Request contains invalid properties.")])
   <-> exists key, In key (own_keys (body req))
                   /\ ~ In key ["query"; "variables"; "operationName"])
  /\ (createGraphQLPropertyValidation req = Next
      <-> forall key, In key (own_keys (body req))
                      -> In key ["query"; "variables"; "operationName"])
  /\ (createAuthLoginPropertyValidation req
      = Send 400 (JObject [("error", JString "Request contains invalid properties.")])
      <-> exists key, In key (own_keys (body req))
                      /\ ~ In key ["email"; "password"; "mode"])
  /\ (createAuthLoginPropertyValidation req = Next
      <-> forall key, In key (own_keys (body req))
                      -> In key ["email"; "password"; "mode"])
  /\ (body req = JUndefined \/ body req = JNull \/ body req = JObject [] ->
      createGraphQLPropertyValidation req = Next
      /\ createAuthLoginPropertyValidation req = Next)
  /\ createGraphQLPropertyValidation req <> Throw
  /\ createAuthLoginPropertyValidation req <> Throw.
Proof.
  destruct (property_check_spec ["query"; "variables"; "operationName"]
              (body req) (createGraphQLPropertyValidation req)) as [G1 G2].
  { unfold createGraphQLPropertyValidation. now rewrite Object_keys_body. }
  destruct (property_check_spec ["email"; "password"; "mode"]
              (body req) (createAuthLoginPropertyValidation req)) as [L1 L2].
  { unfold createAuthLoginPropertyValidation. now rewrite Object_keys_body. }
  repeat split; try apply G1; try apply G2; try apply L1; try apply L2.
  - destruct H as [H|[H|H]]; rewrite H; intros key [].
  - destruct H as [H|[H|H]]; rewrite H; intros key [].
  - unfold createGraphQLPropertyValidation. rewrite Object_keys_body.
    now destruct (negb _).
  - unfold createAuthLoginPropertyValidation. rewrite Object_keys_body.
    now destruct (negb _).
Qed.

Lemma property_checks_reject_exactly_foreign_keys_witness :
  createAuthLoginPropertyValidation
    (mkRequest "POST" "/auth/login" None None (Some "application/json")
       (JObject [("email", JString "test@test.com");
                 ("password", JString "test");
                 ("malicious", JString "property")]))
  = Send 400 (JObject [("error", JString "Request contains invalid properties.")]).
Proof.
  apply (proj1 (proj2 (proj2 (property_checks_reject_exactly_foreign_keys
           (mkRequest "POST" "/auth/login" None None (Some "application/json")
              (JObject [("email", JString "test@test.com");
                        ("password", JString "test");
                        ("malicious", JString "property")])))))).
  exists "malicious". split.
  - simpl. auto.
  - simpl. intros [H|[H|[H|[]]]]; discriminate.
Defined.

(* ================================================================== *)
(** * The GraphQL sub-path check *)
(* ================================================================== *)

Lemma rmatch_lit (l : string) (pos : nat) (s : string)
    (k : nat -> string -> bool) :
  Regex.rmatch (Regex.lit l) pos s k =
  match strip_prefix l s with
  | Some s' => k (pos + String.length l)%nat s'
  | None => false
  end.
Proof.
  revert pos s. induction l as [|a l IH]; intros pos s; simpl.
  - now rewrite Nat.add_0_r.
  - destruct s as [|b s]; [reflexivity|].
    destruct (b =? a)%char; simpl; [|reflexivity].
    rewrite IH. now rewrite Nat.add_succ_r.
Qed.

Lemma rmatch_star_accepting (r : Regex.regex) (pos : nat) (s : string) :
  Regex.rmatch (Regex.RStar r) pos s (fun _ _ => true) = true.
Proof. simpl. destruct (String.length s); apply orb_true_r. Qed.

(** A pattern that starts with [^] matches at offset 0 or nowhere. *)
Lemma test_from_anchored (r : Regex.regex) (pos : nat) (s : string) :
  Regex.test_from (Regex.RSeq Regex.RBegin r) (S pos) s = false.
Proof.
  revert pos. induction s as [|c s IH]; intros pos; simpl; [reflexivity|].
  apply IH.
Qed.

Lemma test_anchored (r : Regex.regex) (s : string) :
  Regex.test (Regex.RSeq Regex.RBegin r) s
  = Regex.rmatch r 0 s (fun _ _ => true).
Proof.
  unfold Regex.test. destruct s as [|c s]; simpl.
  - apply orb_false_r.
  - rewrite test_from_anchored. apply orb_false_r.
Qed.

Lemma rmatch_seq (r1 r2 : Regex.regex) (pos : nat) (s : string)
    (k : nat -> string -> bool) :
  Regex.rmatch (Regex.RSeq r1 r2) pos s k
  = Regex.rmatch r1 pos s (fun pos' s' => Regex.rmatch r2 pos' s' k).
Proof. reflexivity. Qed.

Lemma rmatch_neg_ahead (r : Regex.regex) (pos : nat) (s : string)
    (k : nat -> string -> bool) :
  Regex.rmatch (Regex.RNegAhead r) pos s k
  = negb (Regex.rmatch r pos s (fun _ _ => true)) && k pos s.
Proof. reflexivity. Qed.

(** [\/|$] accepts a slash or the end of the input. *)
Lemma rmatch_slash_or_end (pos : nat) (s : string) :
  Regex.rmatch (Regex.RAlt (Regex.RChar "/") Regex.REnd) pos s (fun _ _ => true)
  = match s with
    | EmptyString => true
    | String c _ => (c =? "/")%char
    end.
Proof.
  destruct s as [|c t]; simpl; [reflexivity|].
  now rewrite andb_true_r, orb_false_r.
Qed.

(** What the pattern of the endpoint check tests. *)
Lemma graphql_subpath_test (s : string) :
  Regex.test GRAPHQL_SUBPATH s =
  match strip_prefix "/graphql/" s with
  | Some rest =>
      negb match strip_prefix "system" rest with
           | Some EmptyString => true
           | Some (String c _) => (c =? "/")%char
           | None => false
           end
  | None => false
  end.
Proof.
  unfold GRAPHQL_SUBPATH. rewrite test_anchored, rmatch_seq, rmatch_lit.
  destruct (strip_prefix "/graphql/" s) as [rest|]; [|reflexivity].
  rewrite rmatch_seq, rmatch_neg_ahead, rmatch_star_accepting, andb_true_r.
  rewrite rmatch_seq, rmatch_lit.
  destruct (strip_prefix "system" rest) as [t|]; [|reflexivity].
  rewrite rmatch_slash_or_end. now destruct t.
Qed.

(** C6. The GraphQL sub-path check on the original URL of the request:
    [/graphql/<rest>] is answered with 400 and the body
    [{ error: "Invalid endpoint." }] unless [<rest>] is [system] or starts
    with [system/]; [/graphql/system] and [/graphql/system/<anything>]
    pass; the bare [/graphql] passes. *)
Theorem graphql_subpaths_rejected_but_system (req : Request) :
  (forall rest,
      originalUrl req = "/graphql/" ++ rest ->
      rest <> "system" ->
      (forall more, rest <> "system/" ++ more) ->
      createGraphQLEndpointValidation req
      = Send 400 (JObject [("error", JString "Invalid endpoint.")]))
  /\ (originalUrl req = "/graphql/system" ->
      createGraphQLEndpointValidation req = Next)
  /\ (forall more,
         originalUrl req = "/graphql/system/" ++ more ->
         createGraphQLEndpointValidation req = Next)
  /\ (originalUrl req = "/graphql" ->
      createGraphQLEndpointValidation req = Next).
Proof.
  unfold createGraphQLEndpointValidation. rewrite graphql_subpath_test.
  repeat split.
  - intros rest Hurl Hsys Hsub.
    rewrite (proj2 (strip_prefix_app "/graphql/" _ rest) Hurl).
    destruct (strip_prefix "system" rest) as [[|c t]|] eqn:E; [| |reflexivity].
    + apply strip_prefix_app in E. simpl in E. contradiction.
    + apply strip_prefix_app in E.
      destruct (Ascii.eqb_spec c "/") as [->|Hc]; [|reflexivity].
      exfalso. apply (Hsub t). exact E.
  - intros ->. reflexivity.
  - intros more ->. reflexivity.
  - intros ->. reflexivity.
Qed.

Lemma graphql_subpaths_rejected_but_system_witness :
  createGraphQLEndpointValidation
    (mkRequest "POST" "/graphql/malicious" None None (Some "application/json")
       (JObject [("query", JString "{ __typename }")]))
  = Send 400 (JObject [("error", JString "Invalid endpoint.")]).
Proof.
  refine (proj1 (graphql_subpaths_rejected_but_system
            (mkRequest "POST" "/graphql/malicious" None None
               (Some "application/json")
               (JObject [("query", JString "{ __typename }")])))
          "malicious" eq_refl _ _).
  - discriminate.
  - intros more. discriminate.
Defined.

(** C9. The path [/graphql/], with a trailing slash and nothing after it,
    is answered with 400 by the GraphQL sub-path check: the empty sub-path
    is not [system]. *)
Theorem graphql_trailing_slash_rejected
    (m : string) (origin referer contentType : Header) (b : JSValue) :
  createGraphQLEndpointValidation
    (mkRequest m "/graphql/" origin referer contentType b)
  = Send 400 (JObject [("error", JString "Invalid endpoint.")]).
Proof. reflexivity. Qed.

(* ================================================================== *)
(** * The status rewriter *)
(* ================================================================== *)

(** C8. The [send] installed by the status rewriter: on a response whose
    status code is 403 it sets the status to 404 and hands the original
    [send] the body
    [{ errors: [{ message: "Not found.", extensions: { code:
    "ROUTE_NOT_FOUND", path: req.originalUrl } }] }] in place of the one it
    was given; on any other status code it hands the body it was given to
    the original [send], the response untouched. *)
Theorem status_rewriter_hides_403
    (originalSend : JSValue -> Response -> Response)
    (req : Request) (body : JSValue) (res : Response) :
  (statusCode res = 403%Z ->
   fst (createStatusRewriteMiddleware originalSend req) body res
   = originalSend
       (JObject
          [("errors",
            JArray
              [JObject
                 [("message", JString "Not found.");
                  ("extensions",
                   JObject [("code", JString "ROUTE_NOT_FOUND");
                            ("path", JString (originalUrl req))])]])])
       {| statusCode := 404; written := written res |})
  /\ (statusCode res <> 403%Z ->
      fst (createStatusRewriteMiddleware originalSend req) body res
      = originalSend body res).
Proof.
  simpl. unfold rewriting_send. split; intros H.
  - rewrite H. reflexivity.
  - apply Z.eqb_neq in H. now rewrite H.
Qed.

Lemma status_rewriter_hides_403_witness :
  fst (createStatusRewriteMiddleware recording_send
         (mkRequest "POST" "/auth/login" (Some "https://malicious-site.com")
            None (Some "application/json") JUndefined))
      (JObject [("error", JString "Access denied: unauthorized origin.")])
      {| statusCode := 403; written := [] |}
  = {| statusCode := 404;
       written :=
         [(404%Z,
           JObject
             [("errors",
               JArray
                 [JObject
                    [("message", JString "Not found.");
                     ("extensions",
                      JObject [("code", JString "ROUTE_NOT_FOUND");
                               ("path", JString "/auth/login")])]])])] |}.
Proof.
  apply (proj1 (status_rewriter_hides_403 recording_send
                  (mkRequest "POST" "/auth/login"
                     (Some "https://malicious-site.com") None
                     (Some "application/json") JUndefined)
                  (JObject [("error", JString "Access denied: unauthorized origin.")])
                  {| statusCode := 403; written := [] |})).
  reflexivity.
Defined.

(* ================================================================== *)
(** * The middleware on the requests of the test suite *)
(* ================================================================== *)

Example endpoint_check_examples :
  map (fun url => createGraphQLEndpointValidation
                    (mkRequest "POST" url None None (Some "application/json")
                       (JObject [("query", JString "{ __typename }")])))
      ["/graphql"; "/graphql/system"; "/graphql/system/foo"; "/graphql/malicious";
       "/graphql/systematic"; "/api/graphql/malicious"]
  = [Next; Next; Next; Send 400 invalid_endpoint; Send 400 invalid_endpoint; Next].
Proof. reflexivity. Qed.

Example login_property_examples :
  map (fun b => createAuthLoginPropertyValidation
                  (mkRequest "POST" "/auth/login" None None
                     (Some "application/json") b))
      [JObject [("email", JString "test@test.com"); ("password", JString "test")];
       JObject [("email", JString "test@test.com"); ("password", JString "test");
                ("mode", JString "cookie")];
       JObject [("email", JString "test@test.com"); ("password", JString "test");
                ("malicious", JString "property")];
       JObject []; JUndefined; JArray [JNull]]
  = [Next; Next; Send 400 invalid_properties; Next; Next;
     Send 400 invalid_properties].
Proof. reflexivity. Qed.

Example origin_check_examples :
  map (fun headers : Header * Header =>
         checkOrigin UrlModel.hostname ["https://asus-press-cms.tenten.dev"]
           "http://localhost:8055"
           (mkRequest "POST" "/auth/login" (fst headers) (snd headers)
              (Some "application/json") JUndefined))
      [(Some "https://malicious-site.com", None);
       (Some "https://asus-press-cms.tenten.dev", None);
       (None, None);
       (None, Some "https://malicious-site.com");
       (Some "https://asus-press-cms.tenten.dev", Some "https://malicious-site.com")]
  = [Send 403 unauthorized; Next; Next; Send 403 unauthorized; Next].
Proof. reflexivity. Qed.

(** The console sees the path; the decision does not. *)
Example console_output_example :
  createCheckOriginMiddleware UrlModel.hostname [] "http://localhost:8055"
    (mkRequest "POST" "/auth/login" (Some "https://malicious-site.com") None
       None JUndefined)
  = ([Log "[Request] POST /auth/login";
      Warn "[CSRF] Blocked cross-site POST request without content-type from: https://malicious-site.com"],
     Send 403 (forbidden "POST")).
Proof. reflexivity. Qed.

(* ================================================================== *)
(** * More on the origin and CSRF check *)
(* ================================================================== *)

(** X1. [hasFormLikeHeader] answers [true] exactly for a header value in
    which one of the three form content types occurs, at any offset and in
    any case of letters; a missing header and an empty one give [false]. *)
Theorem hasFormLikeHeader_exactly_form_types (contentType : Header) :
  hasFormLikeHeader contentType = true
  <-> exists ct, contentType = Some ct /\ form_like ct.
Proof.
  destruct contentType as [ct|].
  - rewrite hasFormLikeHeader_form_like. split.
    + intros H. now exists ct.
    + intros [ct' [E H]]. now injection E as ->.
  - split; [discriminate | intros [ct [E _]]; discriminate].
Qed.

(** X2. The origin check has three outcomes and no other: it passes the
    request on; in allowlist mode it answers 403 "Access denied:
    unauthorized origin."; in CSRF mode it answers 403 "Cross-site METHOD
    form submissions are forbidden" with the method of the request.  It
    never throws. *)
Theorem checkOrigin_outcomes
    (url_hostname : string -> option string)
    (allowedOrigins : list string) (requestUrl : string) (req : Request) :
  checkOrigin url_hostname allowedOrigins requestUrl req = Next
  \/ (allowedOrigins <> [] /\
      checkOrigin url_hostname allowedOrigins requestUrl req
      = Send 403 (JObject [("error", JString "Access denied: unauthorized origin.")]))
  \/ (allowedOrigins = [] /\
      checkOrigin url_hostname allowedOrigins requestUrl req
      = Send 403
          (JObject [("error",
                     JString ("Cross-site " ++ method req
                                ++ " form submissions are forbidden"))])).
Proof.
  rewrite checkOrigin_unfold.
  destruct (includes SAFE_METHODS (method req)); [now left|].
  destruct allowedOrigins as [|a l].
  - change (0 <? List.length (@nil string))%nat with false. cbv iota.
    repeat match goal with
           | |- context [if ?c then _ else _] => destruct c
           end;
      first [left; reflexivity | right; right; split; reflexivity].
  - change (0 <? List.length (a :: l))%nat with true. cbv iota.
    repeat match goal with
           | |- context [if ?c then _ else _] => destruct c
           | |- context [match url_hostname ?s with _ => _ end] =>
               destruct (url_hostname s)
           end;
      first [left; reflexivity
            | right; left; (split; [discriminate | reflexivity])].
Qed.

(** X3. The console of the origin check: every run first logs the line
    "[Request] METHOD URL"; a run that passes the request on logs nothing
    more, and a run that rejects it adds exactly one warning. *)
Theorem rejections_are_warned
    (url_hostname : string -> option string)
    (allowedOrigins : list string) (requestUrl : string) (req : Request) :
  exists rest,
    output (createCheckOriginMiddleware url_hostname allowedOrigins requestUrl req)
    = Log ("[Request] " ++ method req ++ " " ++ originalUrl req) :: rest
    /\ (checkOrigin url_hostname allowedOrigins requestUrl req = Next ->
        rest = [])
    /\ (checkOrigin url_hostname allowedOrigins requestUrl req <> Next ->
        exists line, rest = [Warn line]).
Proof.
  unfold checkOrigin, createCheckOriginMiddleware, decision, output, bind,
    console_log, console_warn, ret.
  repeat match goal with
         | |- context [if ?c then _ else _] => destruct c
         | |- context [match url_hostname ?s with _ => _ end] =>
             destruct (url_hostname s)
         end; simpl; eexists; (split; [reflexivity|]);
    (split; [intros H; first [reflexivity | discriminate]
            | intros H; first [congruence | eexists; reflexivity]]).
Qed.

Lemma existsb_same_members {A} (f : A -> bool) (l1 l2 : list A) :
  (forall x, In x l1 -> In x l2) ->
  existsb f l1 = true -> existsb f l2 = true.
Proof.
  intros Hincl H. apply existsb_exists in H as [x [Hin Hx]].
  apply existsb_exists. exists x. auto.
Qed.

(** X4. The allowed origins are used as a set: two lists with the same
    members, in any order and with any repetitions, give the same
    decision on every request. *)
Theorem allowlist_is_a_set
    (url_hostname : string -> option string)
    (allowed1 allowed2 : list string) (requestUrl : string) (req : Request) :
  (forall entry, In entry allowed1 <-> In entry allowed2) ->
  checkOrigin url_hostname allowed1 requestUrl req
  = checkOrigin url_hostname allowed2 requestUrl req.
Proof.
  intros Hsame. rewrite !checkOrigin_unfold.
  assert (Hlen : (0 <? List.length allowed1)%nat = (0 <? List.length allowed2)%nat).
  { destruct allowed1 as [|a l1], allowed2 as [|b l2]; try reflexivity.
    - destruct (proj2 (Hsame b) (or_introl eq_refl)).
    - destruct (proj1 (Hsame a) (or_introl eq_refl)). }
  rewrite Hlen.
  destruct (url_hostname (to_str (hor (h_origin req) (h_referer req))))
    as [sourceHost|]; [|reflexivity].
  assert (Hex : existsb (origin_matches url_hostname sourceHost) allowed1
                = existsb (origin_matches url_hostname sourceHost) allowed2).
  { destruct (existsb _ allowed1) eqn:E1, (existsb _ allowed2) eqn:E2;
      try reflexivity.
    - apply (existsb_same_members _ _ allowed2) in E1; [congruence|].
      intros x. apply Hsame.
    - apply (existsb_same_members _ _ allowed1) in E2; [congruence|].
      intros x. apply Hsame. }
  now rewrite Hex.
Qed.

Lemma allowlist_is_a_set_witness :
  checkOrigin UrlModel.hostname
    ["https://asus-press-cms.tenten.dev"; "localhost";
     "https://asus-press-cms.tenten.dev"]
    "http://localhost:8055"
    (mkRequest "POST" "/auth/login" (Some "http://localhost:3000") None
       (Some "application/json") JUndefined)
  = checkOrigin UrlModel.hostname
      ["localhost"; "https://asus-press-cms.tenten.dev"]
      "http://localhost:8055"
      (mkRequest "POST" "/auth/login" (Some "http://localhost:3000") None
         (Some "application/json") JUndefined).
Proof.
  apply allowlist_is_a_set. intros entry. simpl. tauto.
Defined.

(** X5. Adding origins to a non-empty allowlist never turns a request
    that passed into a rejected one. *)
Theorem allowlist_grows_monotonically
    (url_hostname : string -> option string)
    (allowed more : list string) (requestUrl : string) (req : Request) :
  allowed <> [] ->
  (forall entry, In entry allowed -> In entry more) ->
  checkOrigin url_hostname allowed requestUrl req = Next ->
  checkOrigin url_hostname more requestUrl req = Next.
Proof.
  intros Hne Hincl. rewrite !checkOrigin_unfold.
  rewrite (allowlist_mode_length _ Hne).
  assert (Hmore : more <> []).
  { destruct allowed as [|a l]; [congruence|].
    intros ->. exact (Hincl a (or_introl eq_refl)). }
  rewrite (allowlist_mode_length _ Hmore).
  repeat match goal with
         | |- context [if ?c then _ else _] => destruct c eqn:?
         | |- context [match url_hostname ?s with _ => _ end] =>
             destruct (url_hostname s) eqn:?
         end; try reflexivity; try discriminate.
  exfalso.
  match goal with
  | H1 : negb (existsb _ allowed) = false, H2 : negb (existsb _ more) = true |- _ =>
      apply negb_false_iff in H1; apply negb_true_iff in H2;
      apply (existsb_same_members _ _ more Hincl) in H1; congruence
  end.
Qed.

Lemma allowlist_grows_monotonically_witness :
  checkOrigin UrlModel.hostname
    ["https://asus-press-cms.tenten.dev"; "https://press.example.com"]
    "http://localhost:8055"
    (mkRequest "POST" "/auth/login" (Some "https://asus-press-cms.tenten.dev")
       None (Some "application/json") JUndefined)
  = Next.
Proof.
  apply (allowlist_grows_monotonically UrlModel.hostname
           ["https://asus-press-cms.tenten.dev"]).
  - discriminate.
  - intros entry [<-|[]]. left. reflexivity.
  - reflexivity.
Defined.

(** X6. In allowlist mode the base URL of the service and the
    Content-Type header are not consulted: two requests with the same
    method, Origin and Referer are decided alike, whatever their content
    types and whatever base URLs the check was built with. *)
Theorem allowlist_mode_ignores_base_url_and_content_type
    (url_hostname : string -> option string)
    (allowedOrigins : list string) (requestUrl1 requestUrl2 : string)
    (req1 req2 : Request) :
  allowedOrigins <> [] ->
  method req1 = method req2 ->
  h_origin req1 = h_origin req2 ->
  h_referer req1 = h_referer req2 ->
  checkOrigin url_hostname allowedOrigins requestUrl1 req1
  = checkOrigin url_hostname allowedOrigins requestUrl2 req2.
Proof.
  intros Ha Hm Ho Hr. rewrite !checkOrigin_unfold.
  rewrite (allowlist_mode_length _ Ha), Hm, Ho, Hr. reflexivity.
Qed.

Lemma allowlist_mode_ignores_base_url_and_content_type_witness :
  checkOrigin UrlModel.hostname ["https://asus-press-cms.tenten.dev"]
    "http://localhost:8055"
    (mkRequest "POST" "/auth/login" (Some "http://localhost:8055") None
       (Some "application/json") JUndefined)
  = checkOrigin UrlModel.hostname ["https://asus-press-cms.tenten.dev"]
      "https://malicious-site.com"
      (mkRequest "POST" "/auth/login" (Some "http://localhost:8055") None
         (Some "text/plain") JUndefined).
Proof.
  apply allowlist_mode_ignores_base_url_and_content_type;
    [discriminate | reflexivity | reflexivity | reflexivity].
Defined.

(** X7. In CSRF mode the Referer header is not consulted and no URL is
    parsed: two requests with the same method, Origin and Content-Type
    are decided alike, whatever their Referer headers and whatever URL
    parser is at hand. *)
Theorem csrf_mode_ignores_referer_and_parser
    (url_hostname1 url_hostname2 : string -> option string)
    (requestUrl : string) (req1 req2 : Request) :
  method req1 = method req2 ->
  h_origin req1 = h_origin req2 ->
  h_content_type req1 = h_content_type req2 ->
  checkOrigin url_hostname1 [] requestUrl req1
  = checkOrigin url_hostname2 [] requestUrl req2.
Proof.
  intros Hm Ho Hc. rewrite !checkOrigin_unfold.
  change (0 <? List.length (@nil string))%nat with false. cbv iota.
  rewrite Hm, Ho, Hc. reflexivity.
Qed.

Lemma csrf_mode_ignores_referer_and_parser_witness :
  checkOrigin UrlModel.hostname [] "http://localhost:8055"
    (mkRequest "POST" "/auth/login" (Some "https://malicious-site.com")
       (Some "http://localhost:8055/admin") (Some "text/plain") JUndefined)
  = checkOrigin (fun _ => None) [] "http://localhost:8055"
      (mkRequest "POST" "/auth/login" (Some "https://malicious-site.com")
         None (Some "text/plain") JUndefined).
Proof.
  apply csrf_mode_ignores_referer_and_parser; reflexivity.
Defined.

(** X8. In allowlist mode only the host name of the source URL counts:
    two requests with the same method whose non-empty Origin headers
    parse to the same host name (or both fail to parse) are decided
    alike, whatever scheme, port and path the two Origins have. *)
Theorem only_the_host_name_counts
    (url_hostname : string -> option string)
    (allowedOrigins : list string) (requestUrl : string)
    (req1 req2 : Request) (origin1 origin2 : string) :
  allowedOrigins <> [] ->
  method req1 = method req2 ->
  h_origin req1 = Some origin1 -> origin1 <> "" ->
  h_origin req2 = Some origin2 -> origin2 <> "" ->
  url_hostname origin1 = url_hostname origin2 ->
  checkOrigin url_hostname allowedOrigins requestUrl req1
  = checkOrigin url_hostname allowedOrigins requestUrl req2.
Proof.
  intros Ha Hm Ho1 Hne1 Ho2 Hne2 Hhost. rewrite !checkOrigin_unfold.
  rewrite (allowlist_mode_length _ Ha), Hm, Ho1, Ho2.
  rewrite !hor_origin by assumption.
  rewrite (proj2 (present_Some origin1) Hne1), (proj2 (present_Some origin2) Hne2).
  simpl. now rewrite Hhost.
Qed.

Lemma only_the_host_name_counts_witness :
  checkOrigin UrlModel.hostname ["https://asus-press-cms.tenten.dev"]
    "http://localhost:8055"
    (mkRequest "POST" "/auth/login" (Some "https://asus-press-cms.tenten.dev")
       None (Some "application/json") JUndefined)
  = checkOrigin UrlModel.hostname ["https://asus-press-cms.tenten.dev"]
      "http://localhost:8055"
      (mkRequest "POST" "/auth/login"
         (Some "http://ASUS-press-cms.tenten.dev:8080/admin?next=/#top")
         (Some "https://malicious-site.com") (Some "application/json") JUndefined).
Proof.
  apply (only_the_host_name_counts UrlModel.hostname
           ["https://asus-press-cms.tenten.dev"] "http://localhost:8055" _ _
           "https://asus-press-cms.tenten.dev"
           "http://ASUS-press-cms.tenten.dev:8080/admin?next=/#top");
    first [discriminate | reflexivity].
Defined.

Lemma existsb_entry_swap {A} (f : A -> bool) (l1 l2 : list A) (a b : A) :
  f a = f b ->
  existsb f (l1 ++ a :: l2) = existsb f (l1 ++ b :: l2).
Proof. intros H. rewrite !existsb_app. simpl. now rewrite H. Qed.

(** X9. An allowed origin may be written as a URL or as a bare host name:
    replacing an entry that parses as a URL by its host name leaves every
    decision as it is, when the host name alone does not parse as a URL
    (or parses to itself). *)
Theorem allowed_url_or_bare_host
    (url_hostname : string -> option string)
    (before after : list string) (entry host : string)
    (requestUrl : string) (req : Request) :
  url_hostname entry = Some host ->
  url_hostname host = None \/ url_hostname host = Some host ->
  checkOrigin url_hostname (before ++ entry :: after) requestUrl req
  = checkOrigin url_hostname (before ++ host :: after) requestUrl req.
Proof.
  intros He Hh. rewrite !checkOrigin_unfold.
  assert (Hlen : forall x : string,
             (0 <? List.length (before ++ x :: after))%nat = true).
  { intros x. destruct before; reflexivity. }
  rewrite !Hlen.
  destruct (url_hostname (to_str (hor (h_origin req) (h_referer req))))
    as [sourceHost|]; [|reflexivity].
  rewrite (existsb_entry_swap _ before after entry host); [reflexivity|].
  unfold origin_matches. rewrite He.
  destruct Hh as [Hh|Hh]; now rewrite Hh.
Qed.

Lemma allowed_url_or_bare_host_witness :
  checkOrigin UrlModel.hostname
    ["localhost"; "https://asus-press-cms.tenten.dev"] "http://localhost:8055"
    (mkRequest "POST" "/auth/login" (Some "https://asus-press-cms.tenten.dev")
       None (Some "application/json") JUndefined)
  = checkOrigin UrlModel.hostname
      ["localhost"; "asus-press-cms.tenten.dev"] "http://localhost:8055"
      (mkRequest "POST" "/auth/login" (Some "https://asus-press-cms.tenten.dev")
         None (Some "application/json") JUndefined).
Proof.
  apply (allowed_url_or_bare_host UrlModel.hostname ["localhost"] []
           "https://asus-press-cms.tenten.dev" "asus-press-cms.tenten.dev").
  - reflexivity.
  - left. reflexivity.
Defined.

(* ================================================================== *)
(** * More on the body property checks *)
(* ================================================================== *)

Lemma property_check_passes (allowedProps : list string) (b : JSValue) :
  (if negb (forallb (fun prop => includes allowedProps prop) (own_keys b))
   then Send 400 invalid_properties else Next) = Next
  <-> forall key, In key (own_keys b) -> In key allowedProps.
Proof.
  destruct (property_check_spec allowedProps b _ eq_refl) as [_ H]. exact H.
Qed.

Lemma graphql_property_unfold (req : Request) :
  createGraphQLPropertyValidation req
  = if negb (forallb (fun prop => includes ["query"; "variables"; "operationName"] prop)
               (own_keys (body req)))
    then Send 400 invalid_properties else Next.
Proof. unfold createGraphQLPropertyValidation. now rewrite Object_keys_body. Qed.

Lemma login_property_unfold (req : Request) :
  createAuthLoginPropertyValidation req
  = if negb (forallb (fun prop => includes ["email"; "password"; "mode"] prop)
               (own_keys (body req)))
    then Send 400 invalid_properties else Next.
Proof. unfold createAuthLoginPropertyValidation. now rewrite Object_keys_body. Qed.

(** X10. The property checks look at the names of the top-level keys and
    at nothing else: when a request passes a check, every request whose
    body has no key beyond those of the first passes it too, whatever the
    values under the keys are. *)
Theorem property_checks_see_only_key_names (req1 req2 : Request) :
  (forall key, In key (own_keys (body req2)) -> In key (own_keys (body req1))) ->
  (createGraphQLPropertyValidation req1 = Next ->
   createGraphQLPropertyValidation req2 = Next)
  /\ (createAuthLoginPropertyValidation req1 = Next ->
      createAuthLoginPropertyValidation req2 = Next).
Proof.
  intros Hsub. rewrite !graphql_property_unfold, !login_property_unfold.
  rewrite !property_check_passes. split; intros H key Hin; auto.
Qed.

Lemma property_checks_see_only_key_names_witness :
  createAuthLoginPropertyValidation
    (mkRequest "POST" "/auth/login" None None (Some "application/json")
       (JObject [("password", JObject [("$ne", JNull)]);
                 ("email", JArray [JString "a"; JString "b"])]))
  = Next.
Proof.
  apply (proj2 (property_checks_see_only_key_names
                  (mkRequest "POST" "/auth/login" None None (Some "application/json")
                     (JObject [("email", JString "test@test.com");
                               ("password", JString "test")]))
                  (mkRequest "POST" "/auth/login" None None (Some "application/json")
                     (JObject [("password", JObject [("$ne", JNull)]);
                               ("email", JArray [JString "a"; JString "b"])]))
                  ltac:(simpl; tauto))).
  reflexivity.
Defined.

(** X11. Bodies that are no objects: an array with at least one element
    and a non-empty string are rejected with 400 by both checks (their
    keys are the indices "0", "1", ...); a number, a boolean, an empty
    array and an empty string pass both. *)
Theorem property_checks_on_non_objects (req : Request) :
  ((exists item items, body req = JArray (item :: items))
   \/ (exists c s, body req = JString (String c s)) ->
   createGraphQLPropertyValidation req
   = Send 400 (JObject [("error", JString "Request contains invalid properties.")])
   /\ createAuthLoginPropertyValidation req
      = Send 400 (JObject [("error", JString "Request contains invalid properties.")]))
  /\ ((exists n, body req = JNumber n) \/ (exists b, body req = JBool b)
      \/ body req = JArray [] \/ body req = JString "" ->
      createGraphQLPropertyValidation req = Next
      /\ createAuthLoginPropertyValidation req = Next).
Proof.
  rewrite graphql_property_unfold, login_property_unfold. split.
  - intros [[item [items H]] | [c [s H]]]; rewrite H; split; reflexivity.
  - intros [[n H] | [[b H] | [H | H]]]; rewrite H; split; reflexivity.
Qed.

Lemma property_checks_on_non_objects_witness :
  createGraphQLPropertyValidation
    (mkRequest "POST" "/graphql" None None (Some "application/json")
       (JArray [JObject [("query", JString "{ __typename }")]]))
  = Send 400 (JObject [("error", JString "Request contains invalid properties.")]).
Proof.
  apply (proj1 (property_checks_on_non_objects
                  (mkRequest "POST" "/graphql" None None (Some "application/json")
                     (JArray [JObject [("query", JString "{ __typename }")]])))).
  left. eexists. eexists. reflexivity.
Defined.

(* ================================================================== *)
(** * More on the GraphQL sub-path check *)
(* ================================================================== *)

Lemma graphql_prefix_injective (r1 r2 : string) :
  "/graphql/" ++ r1 = "/graphql/" ++ r2 -> r1 = r2.
Proof. simpl. congruence. Qed.

(** The sub-paths the pattern lets through. *)
Lemma system_subpath_dec (rest : string) :
  match strip_prefix "system" rest with
  | Some EmptyString => true
  | Some (String c _) => (c =? "/")%char
  | None => false
  end = true
  <-> rest = "system" \/ exists more, rest = "system/" ++ more.
Proof.
  destruct (strip_prefix "system" rest) as [[|c t]|] eqn:S.
  - apply strip_prefix_app in S. simpl in S. split; [now left | reflexivity].
  - apply strip_prefix_app in S. simpl in S.
    destruct (Ascii.eqb_spec c "/") as [->|Hc].
    + split; [|reflexivity]. intros _. right. now exists t.
    + split; [discriminate|]. intros [H | [more H]]; rewrite S in H;
        simpl in H; [discriminate | congruence].
  - split; [discriminate|].
    intros [H | [more H]]; apply (strip_prefix_app "system" rest) in H;
      congruence.
Qed.

Lemma graphql_subpath_test_true (s : string) :
  Regex.test GRAPHQL_SUBPATH s = true
  <-> exists rest,
        s = "/graphql/" ++ rest
        /\ ~ (rest = "system" \/ exists more, rest = "system/" ++ more).
Proof.
  rewrite graphql_subpath_test.
  destruct (strip_prefix "/graphql/" s) as [rest|] eqn:E.
  - apply strip_prefix_app in E. rewrite negb_true_iff.
    rewrite <- not_true_iff_false, system_subpath_dec. split.
    + intros H. now exists rest.
    + intros [r [Hr Hn]]. rewrite E in Hr.
      apply graphql_prefix_injective in Hr. now subst r.
  - split; [discriminate|]. intros [r [Hr _]].
    apply strip_prefix_app in Hr. congruence.
Qed.

Lemma graphql_subpath_test_false (s : string) :
  Regex.test GRAPHQL_SUBPATH s = false
  <-> forall rest,
        s = "/graphql/" ++ rest ->
        rest = "system" \/ exists more, rest = "system/" ++ more.
Proof.
  rewrite graphql_subpath_test.
  destruct (strip_prefix "/graphql/" s) as [rest|] eqn:E.
  - apply strip_prefix_app in E. rewrite negb_false_iff, system_subpath_dec.
    split.
    + intros H r Hr. rewrite E in Hr.
      apply graphql_prefix_injective in Hr. now subst r.
    + intros H. now apply H.
  - split; [|reflexivity]. intros _ r Hr.
    apply strip_prefix_app in Hr. congruence.
Qed.

(** X12. The GraphQL sub-path check is exact: it answers 400 "Invalid
    endpoint." if and only if the original URL is [/graphql/<rest>] with
    [<rest>] neither [system] nor starting with [system/], and passes the
    request on if and only if it is not; so a URL that does not start
    with [/graphql/] always passes, and [/graphql/system] followed by
    anything but a slash (a query string, say) is rejected. *)
Theorem graphql_subpath_check_exact (req : Request) :
  (createGraphQLEndpointValidation req
   = Send 400 (JObject [("error", JString "Invalid endpoint.")])
   <-> exists rest,
         originalUrl req = "/graphql/" ++ rest
         /\ ~ (rest = "system" \/ exists more, rest = "system/" ++ more))
  /\ (createGraphQLEndpointValidation req = Next
      <-> forall rest,
            originalUrl req = "/graphql/" ++ rest ->
            rest = "system" \/ exists more, rest = "system/" ++ more)
  /\ (forall c more,
         c <> "/"%char ->
         originalUrl req = "/graphql/system" ++ String c more ->
         createGraphQLEndpointValidation req
         = Send 400 (JObject [("error", JString "Invalid endpoint.")])).
Proof.
  unfold createGraphQLEndpointValidation.
  pose proof (graphql_subpath_test_true (originalUrl req)) as Ht.
  pose proof (graphql_subpath_test_false (originalUrl req)) as Hf.
  destruct (Regex.test GRAPHQL_SUBPATH (originalUrl req)).
  - split; [|split].
    + split; [intros _; now apply Ht | reflexivity].
    + split; [discriminate | intros H; apply Hf in H; discriminate].
    + reflexivity.
  - split; [|split].
    + split; [discriminate | intros H; apply Ht in H; discriminate].
    + split; [intros _; now apply Hf | reflexivity].
    + intros c more Hc Hurl. exfalso.
      destruct (proj1 Hf eq_refl ("system" ++ String c more) Hurl)
        as [H | [m H]]; simpl in H; [discriminate | congruence].
Qed.

Lemma graphql_subpath_check_exact_witness :
  createGraphQLEndpointValidation
    (mkRequest "GET" "/graphql/system?query={__typename}" None None None
       JUndefined)
  = Send 400 (JObject [("error", JString "Invalid endpoint.")]).
Proof.
  apply (proj2 (proj2 (graphql_subpath_check_exact
           (mkRequest "GET" "/graphql/system?query={__typename}" None None
              None JUndefined)))
         "?"%char "query={__typename}").
  - discriminate.
  - reflexivity.
Defined.

(* ================================================================== *)
(** * More on the status rewriter *)
(* ================================================================== *)

(** X13. The [send] installed by the status rewriter never lets a 403
    out: whatever body and response it is called with, it calls the
    original [send] once, on a response whose status code is not 403 and
    whose earlier output is untouched; with a [send] that records what it
    writes, every entry written under 403 was there before. *)
Theorem rewriter_never_sends_403
    (originalSend : JSValue -> Response -> Response)
    (req : Request) (body : JSValue) (res : Response) :
  (exists body' res',
      fst (createStatusRewriteMiddleware originalSend req) body res
      = originalSend body' res'
      /\ statusCode res' <> 403%Z
      /\ written res' = written res)
  /\ (forall payload,
         In (403%Z, payload)
            (written (fst (createStatusRewriteMiddleware recording_send req)
                        body res)) ->
         In (403%Z, payload) (written res)).
Proof.
  simpl. unfold rewriting_send.
  destruct (statusCode res =? 403)%Z eqn:E.
  - split.
    + eexists. eexists. split; [reflexivity|]. split; [discriminate | reflexivity].
    + intros payload H. simpl in H. apply in_app_or in H as [H|H]; [exact H|].
      destruct H as [H|[]]. discriminate.
  - apply Z.eqb_neq in E. split.
    + exists body, res. auto.
    + intros payload H. simpl in H. apply in_app_or in H as [H|H]; [exact H|].
      destruct H as [H|[]]. congruence.
Qed.

(** X14. At status 403 the body the handler wanted to send is dropped:
    what reaches the original [send] depends on the original URL of the
    request alone, and on nothing of the body given. *)
Theorem rewriter_drops_forbidden_body
    (originalSend : JSValue -> Response -> Response)
    (req1 req2 : Request) (body1 body2 : JSValue) (res : Response) :
  statusCode res = 403%Z ->
  originalUrl req1 = originalUrl req2 ->
  fst (createStatusRewriteMiddleware originalSend req1) body1 res
  = fst (createStatusRewriteMiddleware originalSend req2) body2 res.
Proof.
  intros Hs Hu. simpl. unfold rewriting_send. now rewrite Hs, Hu.
Qed.

Lemma rewriter_drops_forbidden_body_witness :
  fst (createStatusRewriteMiddleware recording_send
         (mkRequest "GET" "/items/secrets" None None None JUndefined))
      (JObject [("errors", JArray [JObject [("message",
                  JString "You don't have permission to access this.")]])])
      {| statusCode := 403; written := [] |}
  = fst (createStatusRewriteMiddleware recording_send
           (mkRequest "DELETE" "/items/secrets" (Some "https://malicious-site.com")
              None None JUndefined))
        JUndefined
        {| statusCode := 403; written := [] |}.
Proof.
  apply rewriter_drops_forbidden_body; reflexivity.
Defined.

(** X15. Installing the status rewriter twice on a request is installing
    it once: the second wrapper finds the status already turned to 404
    and hands the envelope through. *)
Theorem rewriter_installed_twice
    (originalSend : JSValue -> Response -> Response)
    (req : Request) (body : JSValue) (res : Response) :
  fst (createStatusRewriteMiddleware
         (fst (createStatusRewriteMiddleware originalSend req)) req) body res
  = fst (createStatusRewriteMiddleware originalSend req) body res.
Proof.
  simpl. unfold rewriting_send at 1.
  destruct (statusCode res =? 403)%Z eqn:E.
  - unfold rewriting_send. rewrite E. reflexivity.
  - reflexivity.
Qed.

Lemma checkOrigin_status
    (url_hostname : string -> option string)
    (allowedOrigins : list string) (requestUrl : string) (req : Request) :
  checkOrigin url_hostname allowedOrigins requestUrl req = Next
  \/ exists payload,
       checkOrigin url_hostname allowedOrigins requestUrl req = Send 403 payload.
Proof.
  rewrite checkOrigin_unfold.
  repeat match goal with
         | |- context [if ?c then _ else _] => destruct c
         | |- context [match url_hostname ?s with _ => _ end] =>
             destruct (url_hostname s)
         end; first [left; reflexivity | right; eexists; reflexivity].
Qed.

Lemma endpoint_check_status (req : Request) :
  createGraphQLEndpointValidation req = Next
  \/ createGraphQLEndpointValidation req = Send 400 invalid_endpoint.
Proof.
  unfold createGraphQLEndpointValidation.
  destruct (Regex.test _ _); auto.
Qed.

Lemma graphql_property_status (req : Request) :
  createGraphQLPropertyValidation req = Next
  \/ createGraphQLPropertyValidation req = Send 400 invalid_properties.
Proof. rewrite graphql_property_unfold. destruct (negb _); auto. Qed.

Lemma login_property_status (req : Request) :
  createAuthLoginPropertyValidation req = Next
  \/ createAuthLoginPropertyValidation req = Send 400 invalid_properties.
Proof. rewrite login_property_unfold. destruct (negb _); auto. Qed.

(** X16. The checks under the status rewriter: when the [send] of the
    status rewriter is the one in place, a rejection of the origin check
    reaches the original [send] as a 404 with the "Not found." envelope
    and the original URL, its "Access denied" or "Cross-site" body gone;
    the 400 answers of the property checks and of the sub-path check go
    through as they are. *)
Theorem rejections_under_the_rewriter
    (url_hostname : string -> option string)
    (allowedOrigins : list string) (requestUrl : string)
    (originalSend : JSValue -> Response -> Response)
    (req : Request) (res : Response) :
  (checkOrigin url_hostname allowedOrigins requestUrl req <> Next ->
   respond (fst (createStatusRewriteMiddleware originalSend req))
     (checkOrigin url_hostname allowedOrigins requestUrl req) res
   = originalSend
       (JObject
          [("errors",
            JArray
              [JObject
                 [("message", JString "Not found.");
                  ("extensions",
                   JObject [("code", JString "ROUTE_NOT_FOUND");
                            ("path", JString (originalUrl req))])]])])
       {| statusCode := 404; written := written res |})
  /\ (forall check,
         In check [createGraphQLPropertyValidation;
                   createAuthLoginPropertyValidation;
                   createGraphQLEndpointValidation] ->
         respond (fst (createStatusRewriteMiddleware originalSend req))
           (check req) res
         = respond originalSend (check req) res).
Proof.
  split.
  - intros H.
    destruct (checkOrigin_status url_hostname allowedOrigins requestUrl req)
      as [E | [payload E]]; [contradiction|].
    rewrite E. reflexivity.
  - intros check [<- | [<- | [<- | []]]].
    + destruct (graphql_property_status req) as [E|E]; rewrite E; reflexivity.
    + destruct (login_property_status req) as [E|E]; rewrite E; reflexivity.
    + destruct (endpoint_check_status req) as [E|E]; rewrite E; reflexivity.
Qed.

Lemma rejections_under_the_rewriter_witness :
  respond (fst (createStatusRewriteMiddleware recording_send
                  (mkRequest "POST" "/auth/login"
                     (Some "https://malicious-site.com") None
                     (Some "application/json") JUndefined)))
    (checkOrigin UrlModel.hostname ["https://asus-press-cms.tenten.dev"]
       "http://localhost:8055"
       (mkRequest "POST" "/auth/login" (Some "https://malicious-site.com") None
          (Some "application/json") JUndefined))
    {| statusCode := 200; written := [] |}
  = {| statusCode := 404;
       written :=
         [(404%Z,
           JObject
             [("errors",
               JArray
                 [JObject
                    [("message", JString "Not found.");
                     ("extensions",
                      JObject [("code", JString "ROUTE_NOT_FOUND");
                               ("path", JString "/auth/login")])]])])] |}.
Proof.
  apply (proj1 (rejections_under_the_rewriter UrlModel.hostname
                  ["https://asus-press-cms.tenten.dev"] "http://localhost:8055"
                  recording_send
                  (mkRequest "POST" "/auth/login"
                     (Some "https://malicious-site.com") None
                     (Some "application/json") JUndefined)
                  {| statusCode := 200; written := [] |})).
  discriminate.
Defined.

(* ================================================================== *)
(** * The configuration and the chain of index.ts *)
(* ================================================================== *)

Lemma split_nonempty (sep : ascii) (s : string) : split sep s <> [].
Proof.
  induction s as [|c s IH]; simpl; [discriminate|].
  destruct (c =? sep)%char; [discriminate|].
  destruct (split sep s); [contradiction | discriminate].
Qed.

Lemma split_lacks (sep : ascii) (s piece : string) :
  In piece (split sep s) -> lacks sep piece = true.
Proof.
  revert piece. induction s as [|c s IH]; intros piece; simpl.
  - intros [<-|[]]. reflexivity.
  - destruct (Ascii.eqb_spec c sep) as [->|Hne].
    + intros [<-|H]; [reflexivity | auto].
    + pose proof (split_nonempty sep s) as Hs.
      destruct (split sep s) as [|p ps]; [contradiction|].
      intros [<-|H].
      * simpl. rewrite (proj2 (Ascii.eqb_neq c sep) Hne). simpl.
        apply IH. now left.
      * apply IH. now right.
Qed.

Lemma split_whole (sep : ascii) (s : string) :
  lacks sep s = true -> split sep s = [s].
Proof.
  induction s as [|c s IH]; simpl; [reflexivity|].
  intros H. apply andb_true_iff in H as [Hc Hs].
  apply negb_true_iff in Hc. rewrite Hc, (IH Hs). reflexivity.
Qed.

Lemma split_app (sep : ascii) (a b : string) :
  lacks sep a = true ->
  split sep (a ++ String sep b) = a :: split sep b.
Proof.
  induction a as [|c a IH]; simpl.
  - intros _. now rewrite Ascii.eqb_refl.
  - intros H. apply andb_true_iff in H as [Hc Ha].
    apply negb_true_iff in Hc. rewrite Hc, (IH Ha). reflexivity.
Qed.

Lemma trimStart_lacks (c : ascii) (s : string) :
  lacks c s = true -> lacks c (trimStart s) = true.
Proof.
  induction s as [|a s IH]; simpl; [reflexivity|].
  intros H. destruct (is_white_space a); [|exact H].
  apply andb_true_iff in H as [_ H]. auto.
Qed.

Lemma trimEnd_lacks (c : ascii) (s : string) :
  lacks c s = true -> lacks c (trimEnd s) = true.
Proof.
  induction s as [|a s IH]; simpl; [reflexivity|].
  intros H. apply andb_true_iff in H as [Ha Hs]. specialize (IH Hs).
  destruct (trimEnd s) as [|b t].
  - destruct (is_white_space a); simpl; [reflexivity | now rewrite Ha].
  - simpl in *. now rewrite Ha, IH.
Qed.

Lemma trimStart_first (s : string) (c : ascii) :
  first_char (trimStart s) = Some c -> is_white_space c = false.
Proof.
  induction s as [|a s IH]; simpl; [discriminate|].
  destruct (is_white_space a) eqn:E; [exact IH|].
  simpl. intros H. now injection H as <-.
Qed.

Lemma trimEnd_first (s : string) (c : ascii) :
  first_char (trimEnd s) = Some c -> first_char s = Some c.
Proof.
  destruct s as [|a s]; simpl; [discriminate|].
  destruct (trimEnd s); [destruct (is_white_space a)|]; simpl;
    first [discriminate | exact (fun H => H)].
Qed.

Lemma trimEnd_last (s : string) (c : ascii) :
  last_char (trimEnd s) = Some c -> is_white_space c = false.
Proof.
  induction s as [|a s IH]; simpl; [discriminate|].
  destruct (trimEnd s) as [|b t].
  - destruct (is_white_space a) eqn:E; simpl; [discriminate|].
    intros H. now injection H as <-.
  - exact IH.
Qed.

Lemma trim_trimmed (s : string) : trimmed (trim s).
Proof.
  unfold trimmed, trim. split; intros c H.
  - apply trimEnd_first in H. now apply trimStart_first in H.
  - now apply trimEnd_last in H.
Qed.

(** X17. The allowed origins read from [ALLOWED_ORIGINS]: every entry is
    free of commas and has no white space at its start or at its end. *)
Theorem allowed_origins_are_trimmed_pieces (env : Env) (entry : string) :
  In entry (ALLOWED_ORIGINS env) ->
  lacks "," entry = true /\ trimmed entry.
Proof.
  unfold ALLOWED_ORIGINS. destruct (present (env_ALLOWED_ORIGINS env)); [|intros []].
  intros H. apply in_map_iff in H as [piece [<- Hin]].
  split; [|apply trim_trimmed].
  unfold trim. apply trimEnd_lacks, trimStart_lacks.
  exact (split_lacks _ _ _ Hin).
Qed.

Lemma allowed_origins_are_trimmed_pieces_witness :
  lacks "," "b.example.com" = true /\ trimmed "b.example.com".
Proof.
  apply (allowed_origins_are_trimmed_pieces
           (mkEnv (Some " https://a.example.com ,	b.example.com  ,") None)).
  simpl. right. left. reflexivity.
Defined.

(** X18. Any non-empty value of [ALLOWED_ORIGINS] switches the origin
    check to allowlist mode, be it a lone comma or blanks: the list of
    allowed origins is empty exactly when the variable is unset or empty.
    The base URL is [PUBLIC_URL] when that is set and not empty, else
    [http://localhost:8055], and is never empty. *)
Theorem configuration_modes (env : Env) :
  (ALLOWED_ORIGINS env = []
   <-> env_ALLOWED_ORIGINS env = None \/ env_ALLOWED_ORIGINS env = Some "")
  /\ (forall url, env_PUBLIC_URL env = Some url -> url <> "" ->
      REQUEST_URL env = url)
  /\ (env_PUBLIC_URL env = None \/ env_PUBLIC_URL env = Some "" ->
      REQUEST_URL env = "http://localhost:8055")
  /\ REQUEST_URL env <> "".
Proof.
  unfold ALLOWED_ORIGINS, REQUEST_URL, hor. split; [|split; [|split]].
  - rewrite <- present_false.
    destruct (present (env_ALLOWED_ORIGINS env)); split;
      try discriminate; try reflexivity.
    intros H. apply map_eq_nil in H. now apply split_nonempty in H.
  - intros url -> Hne. now rewrite (proj2 (present_Some url) Hne).
  - intros H. apply present_false in H. now rewrite H.
  - destruct (env_PUBLIC_URL env) as [url|] eqn:E; [|discriminate].
    destruct (present (Some url)) eqn:P; [|discriminate].
    apply present_Some in P. exact P.
Qed.

Lemma configuration_modes_witness :
  REQUEST_URL (mkEnv (Some ",") (Some "https://cms.example.com"))
  = "https://cms.example.com".
Proof.
  apply (proj1 (proj2 (configuration_modes
           (mkEnv (Some ",") (Some "https://cms.example.com"))))
         "https://cms.example.com" eq_refl).
  discriminate.
Defined.

Lemma white_space_is_no_comma (pad : string) :
  UrlModel.all_chars is_white_space pad = true -> lacks "," pad = true.
Proof.
  induction pad as [|c pad IH]; simpl; [reflexivity|].
  intros H. apply andb_true_iff in H as [Hc Hp]. rewrite (IH Hp), andb_true_r.
  destruct (Ascii.eqb_spec c ",") as [->|]; [discriminate | reflexivity].
Qed.

Lemma split_pad (sep : ascii) (pad s : string) :
  lacks sep pad = true ->
  split sep (pad ++ s)
  = match split sep s with
    | piece :: pieces => (pad ++ piece) :: pieces
    | [] => []
    end.
Proof.
  induction pad as [|c pad IH]; simpl.
  - intros _. now destruct (split sep s).
  - intros H. apply andb_true_iff in H as [Hc Hp].
    apply negb_true_iff in Hc. rewrite Hc, (IH Hp).
    pose proof (split_nonempty sep s) as Hs.
    destruct (split sep s); [contradiction | reflexivity].
Qed.

Lemma trimStart_pad (pad s : string) :
  UrlModel.all_chars is_white_space pad = true ->
  trimStart (pad ++ s) = trimStart s.
Proof.
  induction pad as [|c pad IH]; simpl; [reflexivity|].
  intros H. apply andb_true_iff in H as [Hc Hp]. now rewrite Hc, IH.
Qed.

Lemma trimEnd_fixed (s : string) :
  (forall c, last_char s = Some c -> is_white_space c = false) ->
  trimEnd s = s.
Proof.
  induction s as [|a s IH]; simpl; [reflexivity|].
  intros H. destruct s as [|b t].
  - simpl. now rewrite (H a eq_refl).
  - rewrite (IH H). reflexivity.
Qed.

Lemma trim_fixed (s : string) : trimmed s -> trim s = s.
Proof.
  intros [Hfirst Hlast]. unfold trim.
  assert (E : trimStart s = s).
  { destruct s as [|a s]; [reflexivity|]. simpl.
    now rewrite (Hfirst a eq_refl). }
  rewrite E. now apply trimEnd_fixed.
Qed.

Lemma split_concat (pad : string) (hosts : list string) :
  lacks "," pad = true ->
  (forall host, In host hosts -> lacks "," host = true) ->
  split "," (String.concat (String "," pad) hosts)
  = match hosts with
    | [] => [""]
    | host :: others => host :: map (fun other => pad ++ other) others
    end.
Proof.
  intros Hpad. induction hosts as [|host others IH]; intros Hall.
  - reflexivity.
  - destruct others as [|next others].
    + simpl. apply split_whole. apply Hall. now left.
    + change (String.concat (String "," pad) (host :: next :: others))
        with (host ++ String "," (pad ++ String.concat (String "," pad)
                                                       (next :: others))).
      rewrite split_app by (apply Hall; now left).
      rewrite (split_pad _ _ _ Hpad), IH by (intros h Hh; apply Hall; now right).
      reflexivity.
Qed.

Lemma concat_nonempty (sep : string) (hosts : list string) :
  hosts <> [] -> hosts <> [""] -> sep <> "" ->
  String.concat sep hosts <> "".
Proof.
  intros Hne Hne' Hsep. destruct hosts as [|host [|next others]].
  - contradiction.
  - simpl. intros ->. contradiction.
  - simpl. destruct host; simpl; [|discriminate].
    destruct sep; [contradiction | discriminate].
Qed.

(** X19. A list of hosts written out with commas, each comma followed by
    any white space, is read back as it was: when no host has a comma or
    white space at its ends, and the list is neither empty nor the single
    empty host, [ALLOWED_ORIGINS] is that list. *)
Theorem allowed_origins_round_trip
    (hosts : list string) (pad : string) (publicUrl : Header) :
  hosts <> [] ->
  hosts <> [""] ->
  UrlModel.all_chars is_white_space pad = true ->
  (forall host, In host hosts -> lacks "," host = true /\ trimmed host) ->
  ALLOWED_ORIGINS (mkEnv (Some (String.concat (String "," pad) hosts)) publicUrl)
  = hosts.
Proof.
  intros Hne Hne' Hpad Hall. unfold ALLOWED_ORIGINS. simpl env_ALLOWED_ORIGINS.
  rewrite (proj2 (present_Some _)
             (concat_nonempty (String "," pad) hosts Hne Hne' ltac:(discriminate))).
  simpl to_str.
  rewrite (split_concat pad hosts (white_space_is_no_comma _ Hpad))
    by (intros h Hh; apply Hall; exact Hh).
  destruct hosts as [|host others]; [contradiction|].
  simpl. f_equal.
  - apply trim_fixed, Hall. now left.
  - rewrite map_map.
    assert (Hothers : forall h, In h others -> trimmed h)
      by (intros h Hh; apply Hall; now right).
    clear - Hothers Hpad. induction others as [|h others IH]; [reflexivity|].
    simpl. f_equal.
    + unfold trim. rewrite (trimStart_pad _ _ Hpad).
      apply (trim_fixed h). apply Hothers. now left.
    + apply IH. intros h' Hh'. apply Hothers. now right.
Qed.

Lemma allowed_origins_round_trip_witness :
  ALLOWED_ORIGINS
    (mkEnv (Some "https://asus-press-cms.tenten.dev, localhost, press.example.com")
       None)
  = ["https://asus-press-cms.tenten.dev"; "localhost"; "press.example.com"].
Proof.
  apply (allowed_origins_round_trip
           ["https://asus-press-cms.tenten.dev"; "localhost"; "press.example.com"]
           " " None).
  - discriminate.
  - discriminate.
  - reflexivity.
  - intros host [<-|[<-|[<-|[]]]]; (split; [reflexivity|]);
      (split; intros c Hc; simpl in Hc; injection Hc as <-; reflexivity).
Defined.

Section HookFacts.

Variable url_hostname : string -> option string.
Variable mount_matches : string -> Request -> bool.

(** The chain of the hook, layer by layer. *)
Lemma gatekeeper_unfold (env : Env) (req : Request) :
  gatekeeper url_hostname mount_matches env req =
  match checkOrigin url_hostname (ALLOWED_ORIGINS env) (REQUEST_URL env) req with
  | Next =>
      match (if mount_matches "/graphql" req
             then createGraphQLPropertyValidation req else Next) with
      | Next =>
          match (if mount_matches "/auth/login" req
                 then createAuthLoginPropertyValidation req else Next) with
          | Next => createGraphQLEndpointValidation req
          | outcome => outcome
          end
      | outcome => outcome
      end
  | outcome => outcome
  end.
Proof.
  unfold gatekeeper, routes_before, app_use, checkOrigin, decision, quiet.
  simpl.
  destruct (createCheckOriginMiddleware url_hostname (ALLOWED_ORIGINS env)
              (REQUEST_URL env) req) as [out outcome].
  destruct outcome; simpl; try reflexivity.
  destruct (mount_matches "/graphql" req), (mount_matches "/auth/login" req);
    simpl;
    destruct (createGraphQLPropertyValidation req); simpl; try reflexivity;
    destruct (createAuthLoginPropertyValidation req); simpl; try reflexivity;
    destruct (createGraphQLEndpointValidation req); reflexivity.
Qed.

End HookFacts.

(** X20. The chain the hook registers: the origin check comes first, so a
    request it rejects gets its 403 whatever the body and the path are;
    a request it lets through is passed on or answered with 400, by a
    property check or by the sub-path check.  The chain never throws, and
    answers 403 only through the origin check. *)
Theorem gatekeeper_outcomes
    (url_hostname : string -> option string)
    (mount_matches : string -> Request -> bool)
    (env : Env) (req : Request) :
  (checkOrigin url_hostname (ALLOWED_ORIGINS env) (REQUEST_URL env) req <> Next ->
   gatekeeper url_hostname mount_matches env req
   = checkOrigin url_hostname (ALLOWED_ORIGINS env) (REQUEST_URL env) req)
  /\ (checkOrigin url_hostname (ALLOWED_ORIGINS env) (REQUEST_URL env) req = Next ->
      gatekeeper url_hostname mount_matches env req = Next
      \/ gatekeeper url_hostname mount_matches env req
         = Send 400 (JObject [("error", JString "Request contains invalid properties.")])
      \/ gatekeeper url_hostname mount_matches env req
         = Send 400 (JObject [("error", JString "Invalid endpoint.")]))
  /\ gatekeeper url_hostname mount_matches env req <> Throw.
Proof.
  rewrite gatekeeper_unfold.
  destruct (checkOrigin_status url_hostname (ALLOWED_ORIGINS env)
              (REQUEST_URL env) req) as [E | [payload E]]; rewrite E.
  - assert (H : forall outcome : Outcome,
               outcome = Next
               \/ outcome = Send 400 invalid_properties
               \/ outcome = Send 400 invalid_endpoint ->
               (Next <> Next -> outcome = Next)
               /\ (Next = Next ->
                   outcome = Next
                   \/ outcome = Send 400 invalid_properties
                   \/ outcome = Send 400 invalid_endpoint)
               /\ outcome <> Throw).
    { intros outcome H. split; [congruence|]. split; [auto|].
      destruct H as [->|[->| ->]]; discriminate. }
    apply H.
    destruct (mount_matches "/graphql" req), (mount_matches "/auth/login" req);
      try destruct (graphql_property_status req) as [G|G]; try rewrite G;
      try destruct (login_property_status req) as [L|L]; try rewrite L;
      try destruct (endpoint_check_status req) as [P|P]; try rewrite P; auto.
  - split; [reflexivity|]. split; [discriminate|discriminate].
Qed.

Lemma gatekeeper_outcomes_witness :
  gatekeeper UrlModel.hostname (fun path req => prefix path (originalUrl req))
    (mkEnv (Some "https://asus-press-cms.tenten.dev") None)
    (mkRequest "POST" "/graphql/malicious" (Some "https://malicious-site.com")
       None (Some "application/json") (JObject [("malicious", JString "property")]))
  = checkOrigin UrlModel.hostname
      (ALLOWED_ORIGINS (mkEnv (Some "https://asus-press-cms.tenten.dev") None))
      (REQUEST_URL (mkEnv (Some "https://asus-press-cms.tenten.dev") None))
      (mkRequest "POST" "/graphql/malicious" (Some "https://malicious-site.com")
         None (Some "application/json") (JObject [("malicious", JString "property")])).
Proof.
  apply (proj1 (gatekeeper_outcomes UrlModel.hostname
                  (fun path req => prefix path (originalUrl req))
                  (mkEnv (Some "https://asus-press-cms.tenten.dev") None)
                  (mkRequest "POST" "/graphql/malicious"
                     (Some "https://malicious-site.com") None
                     (Some "application/json")
                     (JObject [("malicious", JString "property")])))).
  discriminate.
Defined.

(** X21. No request for a GraphQL sub-path other than [system] gets
    through the chain, whatever its method, its headers, its body and
    the configuration are: a safe method spares it the origin check, not
    the sub-path check. *)
Theorem gatekeeper_blocks_graphql_subpaths
    (url_hostname : string -> option string)
    (mount_matches : string -> Request -> bool)
    (env : Env) (req : Request) (rest : string) :
  originalUrl req = "/graphql/" ++ rest ->
  rest <> "system" ->
  (forall more, rest <> "system/" ++ more) ->
  gatekeeper url_hostname mount_matches env req <> Next.
Proof.
  intros Hurl Hsys Hsub.
  assert (E : createGraphQLEndpointValidation req = Send 400 invalid_endpoint).
  { unfold createGraphQLEndpointValidation.
    rewrite (proj2 (graphql_subpath_test_true (originalUrl req))); [reflexivity|].
    exists rest. split; [exact Hurl|].
    intros [H | [more H]]; [contradiction | exact (Hsub more H)]. }
  rewrite gatekeeper_unfold, E.
  destruct (checkOrigin _ _ _ _); try discriminate.
  destruct (mount_matches "/graphql" req), (mount_matches "/auth/login" req);
    try destruct (createGraphQLPropertyValidation req);
    try destruct (createAuthLoginPropertyValidation req); discriminate.
Qed.

Lemma gatekeeper_blocks_graphql_subpaths_witness :
  gatekeeper UrlModel.hostname (fun path req => prefix path (originalUrl req))
    (mkEnv None None)
    (mkRequest "GET" "/graphql/items" None None None JUndefined)
  <> Next.
Proof.
  apply (gatekeeper_blocks_graphql_subpaths UrlModel.hostname
           (fun path req => prefix path (originalUrl req)) (mkEnv None None)
           (mkRequest "GET" "/graphql/items" None None None JUndefined) "items").
  - reflexivity.
  - discriminate.
  - intros more. discriminate.
Defined.
